(** * WaterRejectionTouch: a shallow embedding of the filtering engine

    The engine of [WaterRejectionTouch.cpp] is embedded as pure functions
    over an explicit [State] record (the private members of the C++ class).
    Integers are [Z] with the wrap-around of their C type written out where
    the code can overflow it.  [int] is 32 bits wide (the library targets
    TFT_eSPI/LVGL boards), so an expression over [int16_t]/[uint16_t]
    operands is computed exactly in [int].  [millis()] is the [now]
    argument of the functions that read the clock. *)

From Stdlib Require Import ZArith Lia Bool List.
From Stdlib Require Import Floats.SpecFloat.
From stdpp Require Import base list.
Import ListNotations.
Open Scope Z_scope.

(** ** Machine integers *)

Definition u8 (z : Z) : Z := z mod 256.
Definition u16 (z : Z) : Z := z mod 65536.
Definition u32 (z : Z) : Z := z mod 4294967296.
(** Conversion of an [int] to [int16_t] (two's complement). *)
Definition i16 (z : Z) : Z := (z + 32768) mod 65536 - 32768.

(** ** Data model (WaterRejectionTouch.h) *)

Record TouchPoint := mkTouchPoint {
  x : Z;          (* int16_t *)
  y : Z;          (* int16_t *)
  timestamp : Z;  (* uint32_t *)
  pressure : Z;   (* uint8_t *)
  area : Z;       (* uint16_t *)
  valid : bool
}.

Inductive TouchEvent :=
  TOUCH_NONE | TOUCH_START | TOUCH_MOVE | TOUCH_END | TOUCH_INVALID.

Record WaterRejectionConfig := mkConfig {
  maxTouchArea : Z;            (* uint16_t *)
  minMovement : Z;             (* uint16_t *)
  maxStaticTime : Z;           (* uint16_t *)
  maxSimultaneousTouches : Z;  (* uint8_t *)
  touchTimeout : Z;            (* uint16_t *)
  gestureTimeout : Z;          (* uint16_t *)
  requireGesture : bool;
  edgeSwipeThreshold : Z;      (* uint16_t *)
  swipeMinDistance : Z;        (* uint16_t *)
  debounceTime : Z;            (* uint16_t *)
  pressureThreshold : Z        (* uint16_t *)
}.

Record TouchZone := mkTouchZone {
  active : bool;
  activationTime : Z;  (* uint32_t *)
  touchCount : Z;      (* uint8_t *)
  lastTouchTime : Z    (* uint32_t *)
}.

Inductive GestureState := GESTURE_IDLE | GESTURE_WAITING | GESTURE_ACTIVE.

Inductive ScreenType := SCREEN_CAPACITIVE | SCREEN_RESISTIVE.

Definition ZONE_GRID_SIZE : Z := 20.
Definition HISTORY_SIZE : Z := 20.

(** The private members of [class WaterRejectionTouch]. *)
Record State := mkState {
  touchHistory : list TouchPoint;      (* TouchPoint[HISTORY_SIZE] *)
  historyIndex : Z;                    (* uint8_t *)
  zones : list (list TouchZone);       (* TouchZone[20][20], zones[x][y] *)
  screenWidth : Z;                     (* uint16_t *)
  screenHeight : Z;                    (* uint16_t *)
  config : WaterRejectionConfig;
  gestureState : GestureState;
  gestureStateTimeout : Z;             (* uint32_t *)
  gestureStartPoint : TouchPoint;
  currentTouchCount : Z;               (* uint8_t *)
  multiTouchPoints : list TouchPoint;  (* TouchPoint[5] *)
  waterDropletsRejected : Z;           (* uint32_t *)
  validTouches : Z;                    (* uint32_t *)
  screenType : ScreenType;
  lastValidTouchTime : Z;              (* uint32_t *)
  lastValidTouch : TouchPoint
}.

(** Field updates, one per member the code assigns. *)
Definition set_touchHistory (v : list TouchPoint) (s : State) : State :=
  mkState v (historyIndex s) (zones s) (screenWidth s) (screenHeight s)
    (config s) (gestureState s) (gestureStateTimeout s) (gestureStartPoint s)
    (currentTouchCount s) (multiTouchPoints s) (waterDropletsRejected s)
    (validTouches s) (screenType s) (lastValidTouchTime s) (lastValidTouch s).
Definition set_historyIndex (v : Z) (s : State) : State :=
  mkState (touchHistory s) v (zones s) (screenWidth s) (screenHeight s)
    (config s) (gestureState s) (gestureStateTimeout s) (gestureStartPoint s)
    (currentTouchCount s) (multiTouchPoints s) (waterDropletsRejected s)
    (validTouches s) (screenType s) (lastValidTouchTime s) (lastValidTouch s).
Definition set_zones (v : list (list TouchZone)) (s : State) : State :=
  mkState (touchHistory s) (historyIndex s) v (screenWidth s) (screenHeight s)
    (config s) (gestureState s) (gestureStateTimeout s) (gestureStartPoint s)
    (currentTouchCount s) (multiTouchPoints s) (waterDropletsRejected s)
    (validTouches s) (screenType s) (lastValidTouchTime s) (lastValidTouch s).
Definition set_screenDimensions (w h : Z) (s : State) : State :=
  mkState (touchHistory s) (historyIndex s) (zones s) w h
    (config s) (gestureState s) (gestureStateTimeout s) (gestureStartPoint s)
    (currentTouchCount s) (multiTouchPoints s) (waterDropletsRejected s)
    (validTouches s) (screenType s) (lastValidTouchTime s) (lastValidTouch s).
Definition set_config (v : WaterRejectionConfig) (s : State) : State :=
  mkState (touchHistory s) (historyIndex s) (zones s) (screenWidth s)
    (screenHeight s) v (gestureState s) (gestureStateTimeout s)
    (gestureStartPoint s) (currentTouchCount s) (multiTouchPoints s)
    (waterDropletsRejected s) (validTouches s) (screenType s)
    (lastValidTouchTime s) (lastValidTouch s).
Definition set_gestureState (v : GestureState) (s : State) : State :=
  mkState (touchHistory s) (historyIndex s) (zones s) (screenWidth s)
    (screenHeight s) (config s) v (gestureStateTimeout s)
    (gestureStartPoint s) (currentTouchCount s) (multiTouchPoints s)
    (waterDropletsRejected s) (validTouches s) (screenType s)
    (lastValidTouchTime s) (lastValidTouch s).
Definition set_gestureStateTimeout (v : Z) (s : State) : State :=
  mkState (touchHistory s) (historyIndex s) (zones s) (screenWidth s)
    (screenHeight s) (config s) (gestureState s) v
    (gestureStartPoint s) (currentTouchCount s) (multiTouchPoints s)
    (waterDropletsRejected s) (validTouches s) (screenType s)
    (lastValidTouchTime s) (lastValidTouch s).
Definition set_gestureStartPoint (v : TouchPoint) (s : State) : State :=
  mkState (touchHistory s) (historyIndex s) (zones s) (screenWidth s)
    (screenHeight s) (config s) (gestureState s) (gestureStateTimeout s)
    v (currentTouchCount s) (multiTouchPoints s)
    (waterDropletsRejected s) (validTouches s) (screenType s)
    (lastValidTouchTime s) (lastValidTouch s).
Definition set_currentTouchCount (v : Z) (s : State) : State :=
  mkState (touchHistory s) (historyIndex s) (zones s) (screenWidth s)
    (screenHeight s) (config s) (gestureState s) (gestureStateTimeout s)
    (gestureStartPoint s) v (multiTouchPoints s)
    (waterDropletsRejected s) (validTouches s) (screenType s)
    (lastValidTouchTime s) (lastValidTouch s).
Definition set_multiTouchPoints (v : list TouchPoint) (s : State) : State :=
  mkState (touchHistory s) (historyIndex s) (zones s) (screenWidth s)
    (screenHeight s) (config s) (gestureState s) (gestureStateTimeout s)
    (gestureStartPoint s) (currentTouchCount s) v
    (waterDropletsRejected s) (validTouches s) (screenType s)
    (lastValidTouchTime s) (lastValidTouch s).
Definition set_waterDropletsRejected (v : Z) (s : State) : State :=
  mkState (touchHistory s) (historyIndex s) (zones s) (screenWidth s)
    (screenHeight s) (config s) (gestureState s) (gestureStateTimeout s)
    (gestureStartPoint s) (currentTouchCount s) (multiTouchPoints s)
    v (validTouches s) (screenType s)
    (lastValidTouchTime s) (lastValidTouch s).
Definition set_validTouches (v : Z) (s : State) : State :=
  mkState (touchHistory s) (historyIndex s) (zones s) (screenWidth s)
    (screenHeight s) (config s) (gestureState s) (gestureStateTimeout s)
    (gestureStartPoint s) (currentTouchCount s) (multiTouchPoints s)
    (waterDropletsRejected s) v (screenType s)
    (lastValidTouchTime s) (lastValidTouch s).
Definition set_lastValid (t : Z) (v : TouchPoint) (s : State) : State :=
  mkState (touchHistory s) (historyIndex s) (zones s) (screenWidth s)
    (screenHeight s) (config s) (gestureState s) (gestureStateTimeout s)
    (gestureStartPoint s) (currentTouchCount s) (multiTouchPoints s)
    (waterDropletsRejected s) (validTouches s) (screenType s) t v.

(** Per-field updates of the configuration. *)
Definition cfg_set_maxTouchArea (v : Z) (c : WaterRejectionConfig) :=
  mkConfig v (minMovement c) (maxStaticTime c) (maxSimultaneousTouches c)
    (touchTimeout c) (gestureTimeout c) (requireGesture c)
    (edgeSwipeThreshold c) (swipeMinDistance c) (debounceTime c)
    (pressureThreshold c).
Definition cfg_set_minMovement (v : Z) (c : WaterRejectionConfig) :=
  mkConfig (maxTouchArea c) v (maxStaticTime c) (maxSimultaneousTouches c)
    (touchTimeout c) (gestureTimeout c) (requireGesture c)
    (edgeSwipeThreshold c) (swipeMinDistance c) (debounceTime c)
    (pressureThreshold c).
Definition cfg_set_maxStaticTime (v : Z) (c : WaterRejectionConfig) :=
  mkConfig (maxTouchArea c) (minMovement c) v (maxSimultaneousTouches c)
    (touchTimeout c) (gestureTimeout c) (requireGesture c)
    (edgeSwipeThreshold c) (swipeMinDistance c) (debounceTime c)
    (pressureThreshold c).
Definition cfg_set_maxSimultaneousTouches (v : Z) (c : WaterRejectionConfig) :=
  mkConfig (maxTouchArea c) (minMovement c) (maxStaticTime c) v
    (touchTimeout c) (gestureTimeout c) (requireGesture c)
    (edgeSwipeThreshold c) (swipeMinDistance c) (debounceTime c)
    (pressureThreshold c).
Definition cfg_set_requireGesture (v : bool) (c : WaterRejectionConfig) :=
  mkConfig (maxTouchArea c) (minMovement c) (maxStaticTime c)
    (maxSimultaneousTouches c) (touchTimeout c) (gestureTimeout c) v
    (edgeSwipeThreshold c) (swipeMinDistance c) (debounceTime c)
    (pressureThreshold c).
Definition cfg_set_debounceTime (v : Z) (c : WaterRejectionConfig) :=
  mkConfig (maxTouchArea c) (minMovement c) (maxStaticTime c)
    (maxSimultaneousTouches c) (touchTimeout c) (gestureTimeout c)
    (requireGesture c) (edgeSwipeThreshold c) (swipeMinDistance c) v
    (pressureThreshold c).
Definition cfg_set_pressureThreshold (v : Z) (c : WaterRejectionConfig) :=
  mkConfig (maxTouchArea c) (minMovement c) (maxStaticTime c)
    (maxSimultaneousTouches c) (touchTimeout c) (gestureTimeout c)
    (requireGesture c) (edgeSwipeThreshold c) (swipeMinDistance c)
    (debounceTime c) v.

(** The member initialisers of [struct WaterRejectionConfig], selected by
    [RESISTIVE_SCREEN] / [CAPACITIVE_SCREEN]. *)
Definition defaultConfig (ty : ScreenType) : WaterRejectionConfig :=
  match ty with
  | SCREEN_RESISTIVE => mkConfig 80 10 800 1 1500 700 false 50 150 50 300
  | SCREEN_CAPACITIVE => mkConfig 50 5 500 2 1000 500 false 50 150 0 0
  end.

(** All-zero objects, as [memset(.., 0, ..)] leaves them. *)
Definition zeroTouch : TouchPoint := mkTouchPoint 0 0 0 0 0 false.
Definition zeroZone : TouchZone := mkTouchZone false 0 0 0.

(** The constructor.  The screen type is the compile-time selection, passed
    here as [ty].  [gestureStartPoint] is left uninitialised by the C++
    constructor; it is written before it is first read (on entering
    [GESTURE_WAITING]), and is modelled as all-zero until then. *)
Definition WaterRejectionTouch (ty : ScreenType) (width height : Z) : State :=
  {| touchHistory := replicate (Z.to_nat HISTORY_SIZE) zeroTouch;
     historyIndex := 0;
     zones := replicate (Z.to_nat ZONE_GRID_SIZE)
                (replicate (Z.to_nat ZONE_GRID_SIZE) zeroZone);
     screenWidth := width;
     screenHeight := height;
     config := defaultConfig ty;
     gestureState := GESTURE_IDLE;
     gestureStateTimeout := 0;
     gestureStartPoint := zeroTouch;
     currentTouchCount := 0;
     multiTouchPoints := replicate 5%nat zeroTouch;
     waterDropletsRejected := 0;
     validTouches := 0;
     screenType := ty;
     lastValidTouchTime := 0;
     lastValidTouch := zeroTouch |}.

(** [begin(customConfig)] *)
Definition begin_with (customConfig : WaterRejectionConfig) (s : State) : State :=
  let s := set_config customConfig s in
  let s := set_touchHistory (replicate (Z.to_nat HISTORY_SIZE) zeroTouch) s in
  let s := set_zones (replicate (Z.to_nat ZONE_GRID_SIZE)
                        (replicate (Z.to_nat ZONE_GRID_SIZE) zeroZone)) s in
  let s := set_historyIndex 0 s in
  let s := set_gestureState GESTURE_IDLE s in
  let s := set_waterDropletsRejected 0 s in
  set_validTouches 0 s.

(** [begin()] *)
Definition begin (s : State) : State := begin_with (config s) s.

(** ** Zone grid access: [zones[zx][zy]] *)

Definition getZone (zs : list (list TouchZone)) (zx zy : Z) : TouchZone :=
  match zs !! Z.to_nat zx with
  | Some col => match col !! Z.to_nat zy with
                | Some z => z
                | None => zeroZone
                end
  | None => zeroZone
  end.

Definition setZone (zs : list (list TouchZone)) (zx zy : Z) (z : TouchZone)
  : list (list TouchZone) :=
  alter (fun col => <[Z.to_nat zy := z]> col) (Z.to_nat zx) zs.

(** The grid cell of a position: [(touch.x * ZONE_GRID_SIZE) / screenWidth]
    stored in a [uint8_t]; C division truncates toward zero. *)
Definition zoneOf (pos dim : Z) : Z := u8 (Z.quot (pos * ZONE_GRID_SIZE) dim).

(** ** Single-sample pipeline *)

(** [processTouch], lines 78-79: the bounds check. *)
Definition outOfBounds (touch : TouchPoint) (s : State) : bool :=
  (x touch <? 0) || (screenWidth s <=? x touch) ||
  (y touch <? 0) || (screenHeight s <=? y touch).

(** [processTouch], line 86: the pressure check of a resistive screen. *)
Definition pressureTooLow (touch : TouchPoint) (s : State) : bool :=
  (0 <? pressureThreshold (config s)) &&
  (pressure touch <? pressureThreshold (config s)).

(** [processTouch], lines 92-93: inside the debounce period. *)
Definition inDebounceWindow (touch : TouchPoint) (s : State) : bool :=
  u32 (timestamp touch - lastValidTouchTime s) <? debounceTime (config s).

(** [processTouch], lines 95-98: same position as the last valid touch. *)
Definition samePosition (touch : TouchPoint) (s : State) : bool :=
  let dx := i16 (Z.abs (x touch - x (lastValidTouch s))) in
  let dy := i16 (Z.abs (y touch - y (lastValidTouch s))) in
  (dx <? minMovement (config s)) && (dy <? minMovement (config s)).

(** [processTouch], lines 84-104: the early returns of the resistive block;
    [None] when control falls through to the gesture check. *)
Definition resistiveGate (touch : TouchPoint) (s : State) : option bool :=
  match screenType s with
  | SCREEN_RESISTIVE =>
      if pressureTooLow touch s then Some false
      else if 0 <? debounceTime (config s) then
        if inDebounceWindow touch s then
          if samePosition touch s then Some true else Some false
        else None
      else None
  | SCREEN_CAPACITIVE => None
  end.

(** [validateGesture] *)
Definition validateGesture (touch : TouchPoint) (s : State) : bool * State :=
  let currentTime := timestamp touch in
  match gestureState s with
  | GESTURE_IDLE =>
      if x touch <? edgeSwipeThreshold (config s) then
        (false,
         set_gestureStartPoint touch
           (set_gestureStateTimeout
              (u32 (currentTime + gestureTimeout (config s)))
              (set_gestureState GESTURE_WAITING s)))
      else (false, s)
  | GESTURE_WAITING =>
      if gestureStateTimeout s <? currentTime then
        (false, set_gestureState GESTURE_IDLE s)
      else if swipeMinDistance (config s) <? x touch - x (gestureStartPoint s) then
        (true,
         set_gestureStateTimeout (u32 (currentTime + 30000))
           (set_gestureState GESTURE_ACTIVE s))
      else (false, s)
  | GESTURE_ACTIVE =>
      if gestureStateTimeout s <? currentTime then
        (false, set_gestureState GESTURE_IDLE s)
      else (true, s)
  end.

(** [checkZoneActivity], lines 203-217: one iteration of the double loop. *)
Definition neighborActive (now : Z) (s : State) (zoneX zoneY dx dy : Z) : bool :=
  let nx := u8 (zoneX + dx) in
  let ny := u8 (zoneY + dy) in
  (nx <? ZONE_GRID_SIZE) && (ny <? ZONE_GRID_SIZE) &&
  active (getZone (zones s) nx ny) &&
  (u32 (now - activationTime (getZone (zones s) nx ny)) <? touchTimeout (config s)).

(** The offsets visited by [for dx = -1..1] [for dy = -1..1], in order. *)
Definition neighborOffsets : list (Z * Z) :=
  dx ← [-1; 0; 1]; dy ← [-1; 0; 1]; [(dx, dy)].

Definition countActiveNeighbors (now : Z) (s : State) (zoneX zoneY : Z) : Z :=
  fold_left
    (fun activeNeighbors d =>
       if neighborActive now s zoneX zoneY (fst d) (snd d)
       then activeNeighbors + 1 else activeNeighbors)
    neighborOffsets 0.

(** [checkZoneActivity]; [now] is the value read from [millis()]. *)
Definition checkZoneActivity (now : Z) (zoneX zoneY : Z) (s : State)
  : bool * State :=
  let currentTime := now in
  let z := getZone (zones s) zoneX zoneY in
  let spread (s : State) := (4 <? countActiveNeighbors now s zoneX zoneY, s) in
  if active z then
    let timeSinceActivation := u32 (currentTime - activationTime z) in
    if timeSinceActivation <? 100 then
      let z' := mkTouchZone (active z) (activationTime z)
                  (u8 (touchCount z + 1)) (lastTouchTime z) in
      let s' := set_zones (setZone (zones s) zoneX zoneY z') s in
      if 3 <? touchCount z' then (true, s') else spread s'
    else spread s
  else spread s.

(** [isWaterPattern] *)
Definition isWaterPattern (now : Z) (touch : TouchPoint) (s : State)
  : bool * State :=
  if maxTouchArea (config s) <? area touch then (true, s)
  else
    let zoneX := zoneOf (x touch) (screenWidth s) in
    let zoneY := zoneOf (y touch) (screenHeight s) in
    if (ZONE_GRID_SIZE <=? zoneX) || (ZONE_GRID_SIZE <=? zoneY) then (false, s)
    else checkZoneActivity now zoneX zoneY s.

(** [isStaticTouch], lines 288-296: the test of one history slot. *)
Definition staticMatch (cfg : WaterRejectionConfig) (touch h : TouchPoint) : bool :=
  valid h &&
  (u32 (timestamp touch - timestamp h) <? maxStaticTime cfg) &&
  (i16 (Z.abs (x h - x touch)) <? minMovement cfg) &&
  (i16 (Z.abs (y h - y touch)) <? minMovement cfg).

(** [staticCount] after the loop over the [HISTORY_SIZE] slots (at most 20,
    so the [uint8_t] never wraps). *)
Definition staticCount (touch : TouchPoint) (s : State) : Z :=
  fold_left
    (fun staticCount h =>
       if staticMatch (config s) touch h then staticCount + 1 else staticCount)
    (touchHistory s) 0.

(** [isStaticTouch] *)
Definition isStaticTouch (touch : TouchPoint) (s : State) : bool :=
  5 <? staticCount touch s.

(** [updateHistory] *)
Definition updateHistory (touch : TouchPoint) (s : State) : State :=
  let s := set_touchHistory
             (<[Z.to_nat (historyIndex s) := touch]> (touchHistory s)) s in
  set_historyIndex (u8 (Z.rem (historyIndex s + 1) HISTORY_SIZE)) s.

(** [updateZones] *)
Definition updateZones (touch : TouchPoint) (s : State) : State :=
  let zoneX := zoneOf (x touch) (screenWidth s) in
  let zoneY := zoneOf (y touch) (screenHeight s) in
  if (zoneX <? ZONE_GRID_SIZE) && (zoneY <? ZONE_GRID_SIZE) then
    let z := getZone (zones s) zoneX zoneY in
    (* active = true; activationTime = lastTouchTime = touch.timestamp *)
    let z1 := mkTouchZone true (timestamp touch) (touchCount z) (timestamp touch) in
    let z2 :=
      if u32 (timestamp touch - activationTime z1) <? 100
      then mkTouchZone (active z1) (activationTime z1)
             (u8 (touchCount z1 + 1)) (lastTouchTime z1)
      else mkTouchZone (active z1) (activationTime z1) 1 (lastTouchTime z1) in
    set_zones (setZone (zones s) zoneX zoneY z2) s
  else s.

(** [processTouch(const TouchPoint&)] *)
Definition processTouch (now : Z) (touch : TouchPoint) (s : State)
  : bool * State :=
  if outOfBounds touch s then (false, s)
  else
    match resistiveGate touch s with
    | Some r => (r, s)
    | None =>
        let '(approved, s1) :=
          if requireGesture (config s) then validateGesture touch s
          else (true, s) in
        if negb approved then (false, s1)
        else
          let '(water, s2) := isWaterPattern now touch s1 in
          if water then
            (false, set_waterDropletsRejected
                      (u32 (waterDropletsRejected s2 + 1)) s2)
          else if isStaticTouch touch s2 then
            (false, set_waterDropletsRejected
                      (u32 (waterDropletsRejected s2 + 1)) s2)
          else
            let s3 := updateHistory touch s2 in
            let s4 := updateZones touch s3 in
            let s5 := set_lastValid (timestamp touch) touch s4 in
            (true, set_validTouches (u32 (validTouches s5 + 1)) s5)
    end.

(** [processTouch(int16_t x, int16_t y)]: the sample is stamped with
    [millis()]. *)
Definition processTouch_xy (now : Z) (px py : Z) (s : State) : bool * State :=
  processTouch now (mkTouchPoint px py now 128 10 true) s.

(** [processTouch(int16_t x, int16_t y, uint8_t pressure)] *)
Definition processTouch_xyp (now : Z) (px py p : Z) (s : State) : bool * State :=
  processTouch now (mkTouchPoint px py now p (Z.quot p 5) true) s.

(** [clearOldZones] *)
Definition clearOldZones (now : Z) (s : State) : State :=
  let sweep (z : TouchZone) :=
    if active z && (touchTimeout (config s) <? u32 (now - lastTouchTime z))
    then mkTouchZone false (activationTime z) 0 (lastTouchTime z)
    else z in
  set_zones (map (map sweep) (zones s)) s.

(** [update] *)
Definition update (now : Z) (s : State) : State :=
  let s := clearOldZones now s in
  match gestureState s with
  | GESTURE_IDLE => s
  | _ => if gestureStateTimeout s <? now
         then set_gestureState GESTURE_IDLE s else s
  end.

(** ** Configuration and calibration *)

Definition setConfig (newConfig : WaterRejectionConfig) (s : State) : State :=
  set_config newConfig s.

Definition setMaxTouchArea (a : Z) (s : State) : State :=
  set_config (cfg_set_maxTouchArea a (config s)) s.

Definition enableGestureMode (s : State) : State :=
  set_gestureState GESTURE_IDLE
    (set_config (cfg_set_requireGesture true (config s)) s).

Definition disableGestureMode (s : State) : State :=
  set_gestureState GESTURE_IDLE
    (set_config (cfg_set_requireGesture false (config s)) s).

(** [calibrateForEnvironment] *)
Definition calibrateForEnvironment (wetEnvironment : bool) (s : State) : State :=
  let c := config s in
  match screenType s with
  | SCREEN_RESISTIVE =>
      if wetEnvironment then
        set_config
          (cfg_set_pressureThreshold 400
             (cfg_set_requireGesture true
                (cfg_set_maxSimultaneousTouches 1
                   (cfg_set_maxStaticTime 400
                      (cfg_set_maxTouchArea 60 c))))) s
      else
        set_config
          (cfg_set_pressureThreshold 300
             (cfg_set_requireGesture false
                (cfg_set_maxSimultaneousTouches 1
                   (cfg_set_maxStaticTime 800
                      (cfg_set_maxTouchArea 80 c))))) s
  | SCREEN_CAPACITIVE =>
      if wetEnvironment then
        set_config
          (cfg_set_requireGesture true
             (cfg_set_maxSimultaneousTouches 1
                (cfg_set_maxStaticTime 300
                   (cfg_set_maxTouchArea 30 c)))) s
      else
        set_config
          (cfg_set_requireGesture false
             (cfg_set_maxSimultaneousTouches 2
                (cfg_set_maxStaticTime 500
                   (cfg_set_maxTouchArea 50 c)))) s
  end.

(** [setWetModeEnabled] *)
Definition setWetModeEnabled (enabled : bool) (s : State) : State :=
  calibrateForEnvironment enabled s.

(** ** Multi-touch analysis

    C [float] is IEEE-754 binary32 with round-to-nearest-even, given by the
    Standard Library's executable specification of floating-point
    arithmetic at precision 24 and maximal exponent 128.  [sqrt] and [abs]
    are taken at [float] (the [float] overloads). *)

Definition prec32 : Z := 24.
Definition emax32 : Z := 128.

Definition f32_of_int (z : Z) : spec_float :=
  binary_normalize prec32 emax32 z 0 false.
Definition f32_add : spec_float -> spec_float -> spec_float := SFadd prec32 emax32.
Definition f32_sub : spec_float -> spec_float -> spec_float := SFsub prec32 emax32.
Definition f32_mul : spec_float -> spec_float -> spec_float := SFmul prec32 emax32.
Definition f32_div : spec_float -> spec_float -> spec_float := SFdiv prec32 emax32.
Definition f32_sqrt : spec_float -> spec_float := SFsqrt prec32 emax32.
Definition f32_ltb : spec_float -> spec_float -> bool := SFltb.
Definition f32_abs : spec_float -> spec_float := SFabs.

(** The literals [50.0f], [1000.0f] and [0.9f] (the binary32 nearest to
    9/10, bit pattern 0x3F666666). *)
Definition f32_50 : spec_float := f32_of_int 50.
Definition f32_1000 : spec_float := f32_of_int 1000.
Definition f32_0_9 : spec_float := f32_div (f32_of_int 9) (f32_of_int 10).

(** [multiTouchPoints[i]] *)
Definition mtp (s : State) (i : Z) : TouchPoint :=
  nth (Z.to_nat i) (multiTouchPoints s) zeroTouch.

(** The index pairs visited by the double loop of
    [calculateTouchClusterDensity], in order:
    [i < currentTouchCount - 1 && i < 4], [i < j < currentTouchCount && j < 5]. *)
Definition clusterPairs (n : Z) : list (Z * Z) :=
  i ← seqZ 0 (Z.min (n - 1) 4);
  j ← seqZ (i + 1) (Z.min n 5 - (i + 1));
  [(i, j)].

(** [calculateTouchClusterDensity] *)
Definition calculateTouchClusterDensity (s : State) : spec_float :=
  if currentTouchCount s <? 2 then f32_1000
  else
    let '(totalDistance, pairCount) :=
      fold_left
        (fun (acc : spec_float * Z) (p : Z * Z) =>
           let dx := f32_of_int (x (mtp s (fst p)) - x (mtp s (snd p))) in
           let dy := f32_of_int (y (mtp s (fst p)) - y (mtp s (snd p))) in
           (f32_add (fst acc)
              (f32_sqrt (f32_add (f32_mul dx dx) (f32_mul dy dy))),
            u8 (snd acc + 1)))
        (clusterPairs (currentTouchCount s)) (f32_of_int 0, 0) in
    if 0 <? pairCount then f32_div totalDistance (f32_of_int pairCount)
    else f32_1000.

(** The accumulators [sumX, sumY, sumXY, sumX2] of [checkMultiTouchPattern]. *)
Record LineSums := mkLineSums {
  sumX : spec_float; sumY : spec_float; sumXY : spec_float; sumX2 : spec_float
}.

Definition lineSums (s : State) : LineSums :=
  fold_left
    (fun acc i =>
       let p := mtp s i in
       mkLineSums (f32_add (sumX acc) (f32_of_int (x p)))
                  (f32_add (sumY acc) (f32_of_int (y p)))
                  (f32_add (sumXY acc) (f32_of_int (x p * y p)))
                  (f32_add (sumX2 acc) (f32_of_int (x p * x p))))
    (seqZ 0 (Z.min (currentTouchCount s) 5))
    (mkLineSums (f32_of_int 0) (f32_of_int 0) (f32_of_int 0) (f32_of_int 0)).

(** [checkMultiTouchPattern], lines 248-250: the value of [correlation]. *)
Definition correlation (s : State) : spec_float :=
  let a := lineSums s in
  let n := f32_of_int (currentTouchCount s) in
  f32_div
    (f32_sub (f32_mul n (sumXY a)) (f32_mul (sumX a) (sumY a)))
    (f32_sqrt
       (f32_mul
          (f32_sub (f32_mul n (sumX2 a)) (f32_mul (sumX a) (sumX a)))
          (f32_sub (f32_mul (f32_mul n (sumY a)) (sumY a))
                   (f32_mul (sumY a) (sumY a))))).

(** [checkMultiTouchPattern] *)
Definition checkMultiTouchPattern (s : State) : bool :=
  if currentTouchCount s <? 2 then false
  else
    let clusterDensity := calculateTouchClusterDensity s in
    if f32_ltb clusterDensity f32_50 && (2 <? currentTouchCount s) then true
    else if 3 <=? currentTouchCount s then
      if f32_ltb f32_0_9 (f32_abs (correlation s)) then true else false
    else false.

(** [processMultiTouch], lines 145-148: the copy loop
    [for (i = 0; i < count && i < 5; i++) multiTouchPoints[i] = touches[i]]. *)
Definition copyTouches (touches : list TouchPoint) (count : Z) (s : State) : State :=
  fold_left
    (fun s i =>
       set_multiTouchPoints
         (<[Z.to_nat i := nth (Z.to_nat i) touches zeroTouch]>
            (multiTouchPoints s)) s)
    (seqZ 0 (Z.min count 5)) s.

(** [processMultiTouch]; [touches[i]] is the [i]-th element of [touches]. *)
Definition processMultiTouch (now : Z) (touches : list TouchPoint) (count : Z)
  (s : State) : bool * State :=
  let s := set_currentTouchCount count s in
  if maxSimultaneousTouches (config s) <? count then
    (false, set_waterDropletsRejected (u32 (waterDropletsRejected s + 1)) s)
  else
    let s := copyTouches touches count s in
    if checkMultiTouchPattern s then
      (false, set_waterDropletsRejected (u32 (waterDropletsRejected s + 1)) s)
    else
      fold_left
        (fun (acc : bool * State) i =>
           let '(r, s') :=
             processTouch now (nth (Z.to_nat i) touches zeroTouch) (snd acc) in
           (if r then true else fst acc, s'))
        (seqZ 0 count) (false, s).

(** ** Rejection causes

    [processTouch] reports every rejection as [false].  [rejectionCause]
    names the early return of [processTouch] that is taken, in the order
    of the code; [None] when the call returns [true]. *)

Inductive RejectCause :=
  | OutOfBounds | LowPressure | DebounceWindow | GestureGate
  | AreaTest | ZoneActivityTest | StaticTouchTest.

Definition isWaterPatternCause (c : option RejectCause) : bool :=
  match c with
  | Some AreaTest | Some ZoneActivityTest | Some StaticTouchTest => true
  | _ => false
  end.

Definition rejectionCause (now : Z) (touch : TouchPoint) (s : State)
  : option RejectCause :=
  if outOfBounds touch s then Some OutOfBounds
  else
    match resistiveGate touch s with
    | Some false =>
        if pressureTooLow touch s then Some LowPressure else Some DebounceWindow
    | Some true => None
    | None =>
        let '(approved, s1) :=
          if requireGesture (config s) then validateGesture touch s
          else (true, s) in
        if negb approved then Some GestureGate
        else if maxTouchArea (config s1) <? area touch then Some AreaTest
        else
          let '(water, s2) := isWaterPattern now touch s1 in
          if water then Some ZoneActivityTest
          else if isStaticTouch touch s2 then Some StaticTouchTest
          else None
    end.


(** ** Well-formed arrays

    The history has [HISTORY_SIZE] slots and a cursor inside it; the zone
    grid is [ZONE_GRID_SIZE] by [ZONE_GRID_SIZE]. *)

Definition wfHistory (s : State) : Prop :=
  length (touchHistory s) = Z.to_nat HISTORY_SIZE /\
  0 <= historyIndex s < HISTORY_SIZE.

Definition wfZones (zs : list (list TouchZone)) : Prop :=
  length zs = Z.to_nat ZONE_GRID_SIZE /\
  Forall (fun col => length col = Z.to_nat ZONE_GRID_SIZE) zs.

(** ** Runs of accepted samples

    A sample counts as accepted when [processTouch] returns [true] and the
    accepted counter advances, that is when the call ran to its end (a
    repeat folded by the debounce returns [true] and records nothing).
    [acceptedRun s ts s'] says that the engine went from [s] to [s'] and
    accepted the samples [ts], in this order, on the way.  Between them
    it may have done anything that leaves the history and its cursor
    alone: rejected or folded samples, [update], changes of the
    configuration. *)

Inductive acceptedRun : State -> list TouchPoint -> State -> Prop :=
  | acceptedRun_nil (s : State) : acceptedRun s [] s
  | acceptedRun_cons (s : State) (now : Z) (t : TouchPoint) (s1 : State)
      (ts : list TouchPoint) (s' : State) :
      processTouch now t s = (true, s1) ->
      validTouches s1 <> validTouches s ->
      acceptedRun s1 ts s' ->
      acceptedRun s (t :: ts) s'
  | acceptedRun_other (s s1 : State) (ts : list TouchPoint) (s' : State) :
      touchHistory s1 = touchHistory s ->
      historyIndex s1 = historyIndex s ->
      acceptedRun s1 ts s' ->
      acceptedRun s ts s'.

(** The executable counterpart: feed the samples, each with the clock value
    of its call, and stop at the first that is not accepted. *)
Fixpoint replayAccepted (s : State) (l : list (Z * TouchPoint)) : option State :=
  match l with
  | [] => Some s
  | (now, t) :: l' =>
      let '(r, s1) := processTouch now t s in
      if r && negb (validTouches s1 =? validTouches s)
      then replayAccepted s1 l' else None
  end.

(** [n] calls of [processTouch(px, py)], the first at time [t0] and one
    every [dt] milliseconds. *)
Definition tapsAt (px py t0 dt : Z) (n : nat) : list (Z * TouchPoint) :=
  map (fun k => (t0 + dt * Z.of_nat k,
                 mkTouchPoint px py (t0 + dt * Z.of_nat k) 128 10 true))
      (seq 0 n).


(** ** Engines used in the examples *)

(** A 480x320 capacitive panel after [begin()]. *)
Definition capacitiveEngine : State :=
  begin (WaterRejectionTouch SCREEN_CAPACITIVE 480 320).

(** The same panel started with a static window of one second. *)
Definition staticEngine : State :=
  begin_with (cfg_set_maxStaticTime 1000 (defaultConfig SCREEN_CAPACITIVE))
    (WaterRejectionTouch SCREEN_CAPACITIVE 480 320).

(** The same panel with the gesture gate enabled. *)
Definition gestureEngine : State := enableGestureMode capacitiveEngine.

(** The same panel allowing five simultaneous touches. *)
Definition multiEngine : State :=
  begin_with (cfg_set_maxSimultaneousTouches 5 (defaultConfig SCREEN_CAPACITIVE))
    (WaterRejectionTouch SCREEN_CAPACITIVE 480 320).

(** A 480x320 resistive panel whose pressure threshold fits the 8-bit
    pressure of a sample. *)
Definition resistiveEngine : State :=
  begin_with (cfg_set_pressureThreshold 100 (defaultConfig SCREEN_RESISTIVE))
    (WaterRejectionTouch SCREEN_RESISTIVE 480 320).

(** ** Reference readings used for comparison *)

(** The spread count as the specification words it: the active cells with
    a recent activation among the 8 neighbours, the cell itself left out. *)
Definition countActiveNeighbors8 (now : Z) (s : State) (zoneX zoneY : Z) : Z :=
  fold_left
    (fun activeNeighbors d =>
       if neighborActive now s zoneX zoneY (fst d) (snd d)
       then activeNeighbors + 1 else activeNeighbors)
    (filter (fun d => d <> (0, 0)) neighborOffsets) 0.

(** The Pearson correlation coefficient of x versus y over the points [l]
    as the specification words it, in exact integer arithmetic:
    r = cov / sqrt (varX * varY) with cov = n*Sxy - Sx*Sy,
    varX = n*Sxx - Sx^2 and varY = n*Syy - Sy^2; [|r| > 0.9] is
    [100 * cov^2 > 81 * varX * varY] when both variances are positive. *)
Definition sumOver (f : TouchPoint -> Z) (l : list TouchPoint) : Z :=
  fold_right (fun p acc => f p + acc) 0 l.

Definition pearsonCov (l : list TouchPoint) : Z :=
  Z.of_nat (length l) * sumOver (fun p => x p * y p) l
  - sumOver x l * sumOver y l.
Definition pearsonVarX (l : list TouchPoint) : Z :=
  Z.of_nat (length l) * sumOver (fun p => x p * x p) l
  - sumOver x l * sumOver x l.
Definition pearsonVarY (l : list TouchPoint) : Z :=
  Z.of_nat (length l) * sumOver (fun p => y p * y p) l
  - sumOver y l * sumOver y l.

Definition pearsonExceeds09 (l : list TouchPoint) : bool :=
  (0 <? pearsonVarX l) && (0 <? pearsonVarY l) &&
  (81 * (pearsonVarX l * pearsonVarY l) <? 100 * (pearsonCov l * pearsonCov l)).

(** ** Sample sequences used in the examples *)

(** Five taps on a 480x320 panel (cells are 24 by 16 pixels): the cell
    (5,5) and its four edge neighbours (4,5), (6,5), (5,4), (5,6), one
    every 100 ms. *)
Definition crossTaps : list (Z * TouchPoint) :=
  [(1000, mkTouchPoint 132 88 1000 128 10 true);
   (1100, mkTouchPoint 108 88 1100 128 10 true);
   (1200, mkTouchPoint 156 88 1200 128 10 true);
   (1300, mkTouchPoint 132 72 1300 128 10 true);
   (1400, mkTouchPoint 132 104 1400 128 10 true)].

(** Three simultaneous touches on the diagonal, and three on a vertical
    line. *)
Definition diagonalBatch : list TouchPoint :=
  [mkTouchPoint 0 0 1000 128 10 true;
   mkTouchPoint 100 100 1000 128 10 true;
   mkTouchPoint 200 200 1000 128 10 true].

Definition verticalBatch : list TouchPoint :=
  [mkTouchPoint 100 10 1000 128 10 true;
   mkTouchPoint 100 200 1000 128 10 true;
   mkTouchPoint 100 300 1000 128 10 true].

(** The engine state in which [processMultiTouch] calls
    [checkMultiTouchPattern] for a batch of [count] touches. *)
Definition batchLoaded (touches : list TouchPoint) (count : Z) (s : State) : State :=
  copyTouches touches count (set_currentTouchCount count s).

(** ** The history ring seen on its own *)

(** [updateHistory] on the pair (slots, cursor). *)
Definition ringPush (hi : list TouchPoint * Z) (t : TouchPoint)
  : list TouchPoint * Z :=
  (<[Z.to_nat (snd hi) := t]> (fst hi), u8 (Z.rem (snd hi + 1) HISTORY_SIZE)).

(** [s'] has the history, the cursor and the configuration of [s]. *)
Definition historyFrame (s s' : State) : Prop :=
  touchHistory s' = touchHistory s /\
  historyIndex s' = historyIndex s /\
  config s' = config s.

(** The number of slots of [l] that satisfy [P], as a sum. *)
Definition sumMatches (P : TouchPoint -> bool) (l : list TouchPoint) : Z :=
  fold_right (fun h acc => Z.b2z (P h) + acc) 0 l.

(** ** The remaining members of [WaterRejectionTouch] *)

(** [setRequireGesture] *)
Definition setRequireGesture (require : bool) (s : State) : State :=
  let s := set_config (cfg_set_requireGesture require (config s)) s in
  if negb require then set_gestureState GESTURE_IDLE s else s.

(** [setScreenDimensions] *)
Definition setScreenDimensions (width height : Z) (s : State) : State :=
  set_screenDimensions width height s.

(** [isGestureActive] *)
Definition isGestureActive (s : State) : bool :=
  match gestureState s with GESTURE_ACTIVE => true | _ => false end.

(** [resetGesture] *)
Definition resetGesture (s : State) : State := set_gestureState GESTURE_IDLE s.

(** [getWaterDropletsRejected], [getValidTouches], [getConfig] *)
Definition getWaterDropletsRejected (s : State) : Z := waterDropletsRejected s.
Definition getValidTouches (s : State) : Z := validTouches s.
Definition getConfig (s : State) : WaterRejectionConfig := config s.

(** [resetStatistics] *)
Definition resetStatistics (s : State) : State :=
  set_validTouches 0 (set_waterDropletsRejected 0 s).

(** [isResistiveScreen], [isCapacitiveScreen] *)
Definition isResistiveScreen (s : State) : bool :=
  match screenType s with SCREEN_RESISTIVE => true | _ => false end.
Definition isCapacitiveScreen (s : State) : bool :=
  match screenType s with SCREEN_CAPACITIVE => true | _ => false end.

(** [optimizeForScreenType] (the [Serial] output is left out) *)
Definition optimizeForScreenType (s : State) : State :=
  let c := config s in
  match screenType s with
  | SCREEN_RESISTIVE =>
      set_config
        (cfg_set_maxSimultaneousTouches 1
           (cfg_set_pressureThreshold 300
              (cfg_set_debounceTime 50
                 (cfg_set_maxStaticTime 800
                    (cfg_set_minMovement 10
                       (cfg_set_maxTouchArea 80 c)))))) s
  | SCREEN_CAPACITIVE =>
      set_config
        (cfg_set_maxSimultaneousTouches 2
           (cfg_set_pressureThreshold 0
              (cfg_set_debounceTime 0
                 (cfg_set_maxStaticTime 500
                    (cfg_set_minMovement 5
                       (cfg_set_maxTouchArea 50 c)))))) s
  end.

(** ** Event derivation: [getTouchEvent]

    The function keeps two function-local [static] variables,
    [lastValidTouch] and [wasPressed]; they are the [EventState] threaded
    through the calls (zero-initialised, as statics are). *)

Record EventState := mkEventState {
  ev_lastValidTouch : TouchPoint;
  wasPressed : bool
}.

Definition initialEventState : EventState := mkEventState zeroTouch false.

(** [getTouchEvent]; it reads [config.minMovement] of the engine. *)
Definition getTouchEvent (current : TouchPoint) (s : State) (e : EventState)
  : TouchEvent * EventState :=
  if negb (valid current) then
    if wasPressed e then (TOUCH_END, mkEventState (ev_lastValidTouch e) false)
    else (TOUCH_NONE, e)
  else if negb (wasPressed e) then
    (TOUCH_START, mkEventState current true)
  else
    let dx := i16 (Z.abs (x current - x (ev_lastValidTouch e))) in
    let dy := i16 (Z.abs (y current - y (ev_lastValidTouch e))) in
    if (minMovement (config s) <? dx) || (minMovement (config s) <? dy) then
      (TOUCH_MOVE, mkEventState current (wasPressed e))
    else (TOUCH_NONE, e).

(** The events of a stream of samples, in order. *)
Fixpoint touchEvents (s : State) (e : EventState) (l : list TouchPoint)
  : list TouchEvent :=
  match l with
  | [] => []
  | current :: l' =>
      let '(ev, e') := getTouchEvent current s e in
      ev :: touchEvents s e' l'
  end.

(** [Start] and [End] alternate in [evs], beginning with [Start] when
    [pressed] is false and with [End] when it is true; other events are
    skipped. *)
Fixpoint alternates (pressed : bool) (evs : list TouchEvent) : bool :=
  match evs with
  | [] => true
  | TOUCH_START :: evs' => negb pressed && alternates true evs'
  | TOUCH_END :: evs' => pressed && alternates false evs'
  | _ :: evs' => alternates pressed evs'
  end.

(** ** [TouchEventHandler]

    The three callbacks are function pointers that may be null; the model
    keeps whether each is set and returns the call made, if any, as
    [Some (event, x, y)].  [handleTouch] leaves [touch.pressure] and
    [touch.area] unset: the values the sample happens to carry are the
    arguments [p] and [a]. *)

Record HandlerState := mkHandlerState {
  lastTouch : TouchPoint;
  lastEvent : TouchEvent;
  onTouchStart : bool;
  onTouchMove : bool;
  onTouchEnd : bool
}.

(** The constructor: no callback set, [lastTouch.valid = false]; the other
    fields of [lastTouch] are not initialised and are modelled as zero. *)
Definition TouchEventHandler : HandlerState :=
  mkHandlerState zeroTouch TOUCH_NONE false false false.

Definition setTouchStartCallback (h : HandlerState) : HandlerState :=
  mkHandlerState (lastTouch h) (lastEvent h) true (onTouchMove h) (onTouchEnd h).
Definition setTouchMoveCallback (h : HandlerState) : HandlerState :=
  mkHandlerState (lastTouch h) (lastEvent h) (onTouchStart h) true (onTouchEnd h).
Definition setTouchEndCallback (h : HandlerState) : HandlerState :=
  mkHandlerState (lastTouch h) (lastEvent h) (onTouchStart h) (onTouchMove h) true.

Definition Callback : Type := option (TouchEvent * Z * Z).

(** [TouchEventHandler::handleTouch] *)
Definition handleTouch (now : Z) (px py p a : Z)
  (h : HandlerState) (s : State) (e : EventState)
  : Callback * HandlerState * State * EventState :=
  let touch := mkTouchPoint px py now p a true in
  let '(ok, s') := processTouch now touch s in
  if ok then
    let '(event, e') := getTouchEvent touch s' e in
    let call : Callback :=
      match event with
      | TOUCH_START => if onTouchStart h then Some (TOUCH_START, px, py) else None
      | TOUCH_MOVE => if onTouchMove h then Some (TOUCH_MOVE, px, py) else None
      | TOUCH_END => if onTouchEnd h then Some (TOUCH_END, px, py) else None
      | _ => None
      end in
    (call,
     mkHandlerState touch event (onTouchStart h) (onTouchMove h) (onTouchEnd h),
     s', e')
  else (None, h, s', e).

(** [TouchEventHandler::update] *)
Definition handlerUpdate (now : Z) (h : HandlerState) (s : State)
  : Callback * HandlerState * State :=
  let s' := update now s in
  if valid (lastTouch h) && (100 <? u32 (now - timestamp (lastTouch h))) then
    (if onTouchEnd h
     then Some (TOUCH_END, x (lastTouch h), y (lastTouch h)) else None,
     mkHandlerState
       (mkTouchPoint (x (lastTouch h)) (y (lastTouch h)) (timestamp (lastTouch h))
          (pressure (lastTouch h)) (area (lastTouch h)) false)
       TOUCH_END (onTouchStart h) (onTouchMove h) (onTouchEnd h),
     s')
  else (None, h, s').

(** ** Frames of the pipeline stages *)

(** [s'] differs from [s] at most in the zone grid and the gesture
    fields: what the gesture gate and the water tests may write. *)
Definition stageFrame (s s' : State) : Prop :=
  touchHistory s' = touchHistory s /\
  historyIndex s' = historyIndex s /\
  screenWidth s' = screenWidth s /\
  screenHeight s' = screenHeight s /\
  config s' = config s /\
  currentTouchCount s' = currentTouchCount s /\
  multiTouchPoints s' = multiTouchPoints s /\
  waterDropletsRejected s' = waterDropletsRejected s /\
  validTouches s' = validTouches s /\
  screenType s' = screenType s /\
  lastValidTouchTime s' = lastValidTouchTime s /\
  lastValidTouch s' = lastValidTouch s.

(** The settings no sample may change. *)
Definition sameSettings (s s' : State) : Prop :=
  config s' = config s /\
  screenWidth s' = screenWidth s /\
  screenHeight s' = screenHeight s /\
  screenType s' = screenType s /\
  currentTouchCount s' = currentTouchCount s /\
  multiTouchPoints s' = multiTouchPoints s.

(** The gesture fields. *)
Definition sameGesture (s s' : State) : Prop :=
  gestureState s' = gestureState s /\
  gestureStateTimeout s' = gestureStateTimeout s /\
  gestureStartPoint s' = gestureStartPoint s.

(** The decay applied by [clearOldZones] to one cell. *)
Definition sweepZone (timeout now : Z) (z : TouchZone) : TouchZone :=
  if active z && (timeout <? u32 (now - lastTouchTime z))
  then mkTouchZone false (activationTime z) 0 (lastTouchTime z)
  else z.

(** [processTouch], lines 123-132: the bookkeeping of an accepted sample. *)
Definition acceptSample (touch : TouchPoint) (s : State) : State :=
  let s3 := updateHistory touch s in
  let s4 := updateZones touch s3 in
  let s5 := set_lastValid (timestamp touch) touch s4 in
  set_validTouches (u32 (validTouches s5 + 1)) s5.


(** ** The operations of the engine

    The public members that change an engine, as one type, so that a
    property can be stated for every operation at once.  The two
    coordinate overloads of [processTouch] are [OpProcessTouch] at the
    sample they build. *)
Inductive Operation :=
  | OpProcessTouch (now : Z) (touch : TouchPoint)
  | OpProcessMultiTouch (now : Z) (touches : list TouchPoint) (count : Z)
  | OpUpdate (now : Z)
  | OpBegin (customConfig : WaterRejectionConfig)
  | OpSetConfig (newConfig : WaterRejectionConfig)
  | OpSetMaxTouchArea (a : Z)
  | OpSetRequireGesture (require : bool)
  | OpSetScreenDimensions (width height : Z)
  | OpEnableGestureMode
  | OpDisableGestureMode
  | OpResetGesture
  | OpResetStatistics
  | OpCalibrateForEnvironment (wetEnvironment : bool)
  | OpOptimizeForScreenType.

Definition runOperation (op : Operation) (s : State) : State :=
  match op with
  | OpProcessTouch now touch => snd (processTouch now touch s)
  | OpProcessMultiTouch now touches count =>
      snd (processMultiTouch now touches count s)
  | OpUpdate now => update now s
  | OpBegin customConfig => begin_with customConfig s
  | OpSetConfig newConfig => setConfig newConfig s
  | OpSetMaxTouchArea a => setMaxTouchArea a s
  | OpSetRequireGesture require => setRequireGesture require s
  | OpSetScreenDimensions width height => setScreenDimensions width height s
  | OpEnableGestureMode => enableGestureMode s
  | OpDisableGestureMode => disableGestureMode s
  | OpResetGesture => resetGesture s
  | OpResetStatistics => resetStatistics s
  | OpCalibrateForEnvironment wetEnvironment =>
      calibrateForEnvironment wetEnvironment s
  | OpOptimizeForScreenType => optimizeForScreenType s
  end.

(** How an operation may change the in-window counter of a cell, from [c]
    to [c']: not at all, by [k] increments of a [uint8_t] (at most [n]
    of them), or to zero. *)
Definition counterBumped (n c c' : Z) : Prop :=
  c' = c \/ exists k : Z, 1 <= k <= n /\ c' = u8 (c + k).
(** * Properties *)

(** ** Frame lemmas of the pipeline stages *)

Lemma u32_succ_neq (c : Z) : u32 (c + 1) <> c.
Proof.
  unfold u32. intros H.
  assert (0 <= c < 4294967296) by (rewrite <- H; apply Z.mod_pos_bound; lia).
  destruct (Z.eq_dec c 4294967295) as [->|Hne].
  - vm_compute in H. discriminate.
  - rewrite Z.mod_small in H by lia. lia.
Qed.

Lemma validateGesture_rejected (touch : TouchPoint) (s : State) :
  waterDropletsRejected (snd (validateGesture touch s)) = waterDropletsRejected s.
Proof.
  unfold validateGesture.
  destruct (gestureState s); repeat case_match; reflexivity.
Qed.

Lemma validateGesture_config (touch : TouchPoint) (s : State) :
  config (snd (validateGesture touch s)) = config s.
Proof.
  unfold validateGesture.
  destruct (gestureState s); repeat case_match; reflexivity.
Qed.

Lemma checkZoneActivity_rejected (now zx zy : Z) (s : State) :
  waterDropletsRejected (snd (checkZoneActivity now zx zy s))
  = waterDropletsRejected s.
Proof.
  unfold checkZoneActivity. repeat case_match; reflexivity.
Qed.

Lemma isWaterPattern_rejected (now : Z) (touch : TouchPoint) (s : State) :
  waterDropletsRejected (snd (isWaterPattern now touch s))
  = waterDropletsRejected s.
Proof.
  unfold isWaterPattern. repeat case_match; try reflexivity.
  apply checkZoneActivity_rejected.
Qed.

Lemma isWaterPattern_area (now : Z) (touch : TouchPoint) (s : State) :
  (maxTouchArea (config s) <? area touch) = true ->
  isWaterPattern now touch s = (true, s).
Proof. unfold isWaterPattern. intros ->. reflexivity. Qed.

Lemma stageFrame_refl (s : State) : stageFrame s s.
Proof. repeat split. Qed.

Lemma stageFrame_trans (s1 s2 s3 : State) :
  stageFrame s1 s2 -> stageFrame s2 s3 -> stageFrame s1 s3.
Proof.
  unfold stageFrame.
  intros (?&?&?&?&?&?&?&?&?&?&?&?) (?&?&?&?&?&?&?&?&?&?&?&?).
  repeat split; congruence.
Qed.

Lemma validateGesture_stageFrame (touch : TouchPoint) (s : State) :
  stageFrame s (snd (validateGesture touch s)).
Proof.
  unfold validateGesture.
  destruct (gestureState s); repeat case_match; repeat split.
Qed.

Lemma isWaterPattern_stageFrame (now : Z) (touch : TouchPoint) (s : State) :
  stageFrame s (snd (isWaterPattern now touch s)).
Proof.
  unfold isWaterPattern, checkZoneActivity. repeat case_match; repeat split.
Qed.

Lemma isWaterPattern_sameGesture (now : Z) (touch : TouchPoint) (s : State) :
  sameGesture s (snd (isWaterPattern now touch s)).
Proof.
  unfold isWaterPattern, checkZoneActivity. repeat case_match; repeat split.
Qed.

Lemma updateZones_stageFrame (touch : TouchPoint) (s : State) :
  stageFrame s (updateZones touch s).
Proof. unfold updateZones. case_match; repeat split. Qed.

Lemma updateZones_sameGesture (touch : TouchPoint) (s : State) :
  sameGesture s (updateZones touch s).
Proof. unfold updateZones. case_match; repeat split. Qed.

(** ** C1: out-of-bounds samples *)

(** C1. A sample whose x is outside [0, screenWidth) or whose y is outside
    [0, screenHeight) makes [processTouch] return reject and leaves the
    whole engine state (both counters, the history, the zone grid, the
    gesture state and the debounce reference included) as it was. *)
Theorem processTouch_out_of_bounds (now : Z) (touch : TouchPoint) (s : State) :
  x touch < 0 \/ screenWidth s <= x touch \/
  y touch < 0 \/ screenHeight s <= y touch ->
  processTouch now touch s = (false, s).
Proof.
  intros H. unfold processTouch.
  assert (outOfBounds touch s = true) as ->; [|reflexivity].
  unfold outOfBounds. rewrite !orb_true_iff.
  rewrite !Z.ltb_lt, !Z.leb_le. tauto.
Qed.

Lemma processTouch_out_of_bounds_witness :
  processTouch 1000 (mkTouchPoint 480 100 1000 128 10 true)
    (begin (WaterRejectionTouch SCREEN_CAPACITIVE 480 320))
  = (false, begin (WaterRejectionTouch SCREEN_CAPACITIVE 480 320)).
Proof.
  apply processTouch_out_of_bounds. right; left. simpl. lia.
Defined.

(** ** C2: which rejections are counted *)

(** What each cause stands for, in the terms of the code: the test that
    returned, and the tests before it that let the sample through. *)
Lemma rejectionCause_sound (now : Z) (touch : TouchPoint) (s : State) :
  match rejectionCause now touch s with
  | Some OutOfBounds => outOfBounds touch s = true
  | Some LowPressure =>
      outOfBounds touch s = false /\ screenType s = SCREEN_RESISTIVE /\
      pressureTooLow touch s = true
  | Some DebounceWindow =>
      outOfBounds touch s = false /\ screenType s = SCREEN_RESISTIVE /\
      pressureTooLow touch s = false /\
      inDebounceWindow touch s = true /\ samePosition touch s = false
  | Some GestureGate =>
      outOfBounds touch s = false /\ resistiveGate touch s = None /\
      requireGesture (config s) = true /\
      fst (validateGesture touch s) = false
  | Some AreaTest =>
      outOfBounds touch s = false /\ resistiveGate touch s = None /\
      maxTouchArea (config s) < area touch
  | Some ZoneActivityTest | Some StaticTouchTest =>
      outOfBounds touch s = false /\ resistiveGate touch s = None /\
      area touch <= maxTouchArea (config s)
  | None => fst (processTouch now touch s) = true
  end.
Proof.
  unfold rejectionCause, processTouch.
  destruct (outOfBounds touch s) eqn:Hb; [reflexivity|].
  destruct (resistiveGate touch s) as [[|]|] eqn:Hg.
  - reflexivity.
  - unfold resistiveGate in Hg.
    destruct (screenType s); [discriminate|].
    destruct (pressureTooLow touch s); [auto|].
    destruct (0 <? debounceTime (config s)); [|discriminate].
    destruct (inDebounceWindow touch s); [|discriminate].
    destruct (samePosition touch s); [discriminate|auto].
  - pose proof (validateGesture_config touch s) as Hc.
    destruct (requireGesture (config s)) eqn:Hr.
    + destruct (validateGesture touch s) as [approved s1]. simpl in Hc.
      destruct approved; simpl; [|auto].
      rewrite Hc.
      destruct (maxTouchArea (config s) <? area touch) eqn:Ha.
      * apply Z.ltb_lt in Ha. auto.
      * apply Z.ltb_ge in Ha.
        destruct (isWaterPattern now touch s1) as [water s2].
        destruct water; [auto|]. destruct (isStaticTouch touch s2); auto.
    + simpl.
      destruct (maxTouchArea (config s) <? area touch) eqn:Ha.
      * apply Z.ltb_lt in Ha. auto.
      * apply Z.ltb_ge in Ha.
        destruct (isWaterPattern now touch s) as [water s2].
        destruct water; [auto|]. destruct (isStaticTouch touch s2); auto.
Qed.

(** C2. [processTouch] returns reject exactly when one of its tests
    rejects, whatever the cause; the rejected counter is incremented
    (modulo 2^32) exactly when the cause is a water-pattern test (area,
    zone activity or static touch), and is unchanged for out-of-bounds,
    pressure, debounce and gesture-gate rejections and for accepts. *)
Theorem processTouch_rejected_counter (now : Z) (touch : TouchPoint) (s : State) :
  fst (processTouch now touch s)
    = match rejectionCause now touch s with Some _ => false | None => true end
  /\ waterDropletsRejected (snd (processTouch now touch s))
     = (if isWaterPatternCause (rejectionCause now touch s)
        then u32 (waterDropletsRejected s + 1)
        else waterDropletsRejected s)
  /\ (waterDropletsRejected (snd (processTouch now touch s))
        <> waterDropletsRejected s
      <-> isWaterPatternCause (rejectionCause now touch s) = true).
Proof.
  assert (fst (processTouch now touch s)
          = match rejectionCause now touch s with Some _ => false | None => true end
          /\ waterDropletsRejected (snd (processTouch now touch s))
             = (if isWaterPatternCause (rejectionCause now touch s)
                then u32 (waterDropletsRejected s + 1)
                else waterDropletsRejected s)) as [H1 H2].
  { unfold processTouch, rejectionCause.
    destruct (outOfBounds touch s); [split; reflexivity|].
    destruct (resistiveGate touch s) as [[|]|] eqn:Hg.
    - split; reflexivity.
    - destruct (pressureTooLow touch s); split; reflexivity.
    - assert (waterDropletsRejected
                (snd (if requireGesture (config s) then validateGesture touch s
                      else (true, s))) = waterDropletsRejected s) as Hs1.
      { destruct (requireGesture (config s)); [apply validateGesture_rejected|reflexivity]. }
      destruct (if requireGesture (config s) then validateGesture touch s
                else (true, s)) as [approved s1].
      simpl in Hs1.
      destruct approved; simpl; [|split; [reflexivity|exact Hs1]].
      destruct (maxTouchArea (config s1) <? area touch) eqn:Ha.
      + rewrite (isWaterPattern_area now touch s1 Ha). simpl.
        split; [reflexivity|]. now rewrite Hs1.
      + pose proof (isWaterPattern_rejected now touch s1) as Hs2.
        destruct (isWaterPattern now touch s1) as [water s2]. simpl in Hs2.
        destruct water; simpl; [split; [reflexivity|congruence]|].
        destruct (isStaticTouch touch s2); simpl; [split; [reflexivity|congruence]|].
        split; [reflexivity|].
        unfold updateZones. case_match; simpl; congruence. }
  split; [exact H1|]. split; [exact H2|].
  rewrite H2. destruct (isWaterPatternCause (rejectionCause now touch s)).
  - split; [reflexivity|]. intros _. apply u32_succ_neq.
  - split; [intros H; now contradict H | discriminate].
Qed.

(** ** C3: the gesture gate *)

(** Idle to Waiting: a sample left of the edge-swipe threshold is recorded
    as the start point, the deadline is [now + gestureTimeout] (in
    [uint32_t]), and the sample is not approved. *)
Lemma validateGesture_idle_to_waiting (touch : TouchPoint) (s : State) :
  gestureState s = GESTURE_IDLE ->
  x touch < edgeSwipeThreshold (config s) ->
  fst (validateGesture touch s) = false /\
  gestureState (snd (validateGesture touch s)) = GESTURE_WAITING /\
  gestureStartPoint (snd (validateGesture touch s)) = touch /\
  gestureStateTimeout (snd (validateGesture touch s))
    = u32 (timestamp touch + gestureTimeout (config s)).
Proof.
  intros Hst Hx. unfold validateGesture. rewrite Hst.
  apply Z.ltb_lt in Hx. rewrite Hx. simpl. auto.
Qed.

(** Waiting to Active: the code asks for strictly more than
    [swipeMinDistance] between the sample and the start point. *)
Lemma validateGesture_waiting_to_active (touch : TouchPoint) (s : State) :
  gestureState s = GESTURE_WAITING ->
  timestamp touch <= gestureStateTimeout s ->
  swipeMinDistance (config s) < x touch - x (gestureStartPoint s) ->
  fst (validateGesture touch s) = true /\
  gestureState (snd (validateGesture touch s)) = GESTURE_ACTIVE /\
  gestureStateTimeout (snd (validateGesture touch s))
    = u32 (timestamp touch + 30000).
Proof.
  intros Hst Ht Hx. unfold validateGesture. rewrite Hst.
  assert ((gestureStateTimeout s <? timestamp touch) = false) as ->
    by (apply Z.ltb_ge; lia).
  apply Z.ltb_lt in Hx. rewrite Hx. simpl. auto.
Qed.

(** A swipe of at most [swipeMinDistance] leaves the gate Waiting. *)
Lemma validateGesture_waiting_short_swipe (touch : TouchPoint) (s : State) :
  gestureState s = GESTURE_WAITING ->
  timestamp touch <= gestureStateTimeout s ->
  x touch - x (gestureStartPoint s) <= swipeMinDistance (config s) ->
  validateGesture touch s = (false, s).
Proof.
  intros Hst Ht Hx. unfold validateGesture. rewrite Hst.
  assert ((gestureStateTimeout s <? timestamp touch) = false) as ->
    by (apply Z.ltb_ge; lia).
  assert ((swipeMinDistance (config s) <? x touch - x (gestureStartPoint s)) = false)
    as -> by (apply Z.ltb_ge; lia).
  reflexivity.
Qed.

(** Active to Active: before the deadline every sample is approved and the
    state, deadline included, is unchanged. *)
Lemma validateGesture_active (touch : TouchPoint) (s : State) :
  gestureState s = GESTURE_ACTIVE ->
  timestamp touch <= gestureStateTimeout s ->
  validateGesture touch s = (true, s).
Proof.
  intros Hst Ht. unfold validateGesture. rewrite Hst.
  assert ((gestureStateTimeout s <? timestamp touch) = false) as ->
    by (apply Z.ltb_ge; lia).
  reflexivity.
Qed.

(** C3, at the boundary.  The configuration documents [swipeMinDistance]
    as the minimum swipe distance (150 by default), yet the gate asks for
    strictly more.  With gesture gating enabled and the default
    thresholds (edge 50, gesture timeout 500), a sample at x = 0 moves
    the gate to Waiting with deadline 1500; a sample 100 ms later at
    x = 150, which exceeds the start point by exactly the minimum swipe
    distance, is not approved and leaves the gate Waiting; x = 151 opens
    the gate. *)
Lemma gesture_swipe_of_min_distance_not_approved :
  gestureState (snd (processTouch_xy 1000 0 100 gestureEngine)) = GESTURE_WAITING
  /\ gestureStateTimeout (snd (processTouch_xy 1000 0 100 gestureEngine)) = 1500
  /\ swipeMinDistance (config (snd (processTouch_xy 1000 0 100 gestureEngine))) = 150
  /\ fst (validateGesture (mkTouchPoint 150 100 1100 128 10 true)
            (snd (processTouch_xy 1000 0 100 gestureEngine))) = false
  /\ fst (processTouch_xy 1100 150 100
            (snd (processTouch_xy 1000 0 100 gestureEngine))) = false
  /\ gestureState (snd (processTouch_xy 1100 150 100
            (snd (processTouch_xy 1000 0 100 gestureEngine)))) = GESTURE_WAITING
  /\ fst (processTouch_xy 1100 151 100
            (snd (processTouch_xy 1000 0 100 gestureEngine))) = true
  /\ gestureState (snd (processTouch_xy 1100 151 100
            (snd (processTouch_xy 1000 0 100 gestureEngine)))) = GESTURE_ACTIVE.
Proof. vm_compute. repeat split; reflexivity. Qed.

(** The transitions of the gate as the code makes them.  From Idle, a
    sample with x below the edge-swipe threshold moves the state to
    Waiting, records the start point, sets the deadline to
    now + gestureTimeout (in [uint32_t]) and is not approved.  From
    Waiting, not after the deadline, a sample whose x exceeds the start
    point's x by more than [swipeMinDistance] moves the state to Active,
    is approved and resets the deadline to now + 30000 ms; one that
    exceeds it by no more than that distance is not approved and changes
    nothing.  From Active, not after the deadline, every sample is
    approved and nothing changes, the deadline included. *)
Lemma gesture_gate_transitions (touch : TouchPoint) (s : State) :
  (gestureState s = GESTURE_IDLE ->
   x touch < edgeSwipeThreshold (config s) ->
   fst (validateGesture touch s) = false /\
   gestureState (snd (validateGesture touch s)) = GESTURE_WAITING /\
   gestureStartPoint (snd (validateGesture touch s)) = touch /\
   gestureStateTimeout (snd (validateGesture touch s))
     = u32 (timestamp touch + gestureTimeout (config s)))
  /\ (gestureState s = GESTURE_WAITING ->
      timestamp touch <= gestureStateTimeout s ->
      swipeMinDistance (config s) < x touch - x (gestureStartPoint s) ->
      fst (validateGesture touch s) = true /\
      gestureState (snd (validateGesture touch s)) = GESTURE_ACTIVE /\
      gestureStateTimeout (snd (validateGesture touch s))
        = u32 (timestamp touch + 30000))
  /\ (gestureState s = GESTURE_WAITING ->
      timestamp touch <= gestureStateTimeout s ->
      x touch - x (gestureStartPoint s) <= swipeMinDistance (config s) ->
      validateGesture touch s = (false, s))
  /\ (gestureState s = GESTURE_ACTIVE ->
      timestamp touch <= gestureStateTimeout s ->
      validateGesture touch s = (true, s)).
Proof.
  split; [apply validateGesture_idle_to_waiting|].
  split; [apply validateGesture_waiting_to_active|].
  split; [apply validateGesture_waiting_short_swipe|apply validateGesture_active].
Qed.

Lemma gesture_gate_transitions_witness :
  (fst (validateGesture (mkTouchPoint 0 100 1000 128 10 true) gestureEngine) = false /\
   gestureState (snd (validateGesture (mkTouchPoint 0 100 1000 128 10 true)
                        gestureEngine)) = GESTURE_WAITING /\
   gestureStartPoint (snd (validateGesture (mkTouchPoint 0 100 1000 128 10 true)
                             gestureEngine)) = mkTouchPoint 0 100 1000 128 10 true /\
   gestureStateTimeout (snd (validateGesture (mkTouchPoint 0 100 1000 128 10 true)
                               gestureEngine)) = 1500)
  /\ (fst (validateGesture (mkTouchPoint 151 100 1100 128 10 true)
             (snd (processTouch_xy 1000 0 100 gestureEngine))) = true /\
      gestureState (snd (validateGesture (mkTouchPoint 151 100 1100 128 10 true)
                           (snd (processTouch_xy 1000 0 100 gestureEngine))))
        = GESTURE_ACTIVE /\
      gestureStateTimeout (snd (validateGesture (mkTouchPoint 151 100 1100 128 10 true)
                                  (snd (processTouch_xy 1000 0 100 gestureEngine))))
        = 31100)
  /\ validateGesture (mkTouchPoint 150 100 1100 128 10 true)
        (snd (processTouch_xy 1000 0 100 gestureEngine))
      = (false, snd (processTouch_xy 1000 0 100 gestureEngine))
  /\ validateGesture (mkTouchPoint 10 10 2000 128 10 true)
        (snd (processTouch_xy 1100 151 100
                (snd (processTouch_xy 1000 0 100 gestureEngine))))
      = (true, snd (processTouch_xy 1100 151 100
                      (snd (processTouch_xy 1000 0 100 gestureEngine)))).
Proof.
  split.
  { apply (proj1 (gesture_gate_transitions
                    (mkTouchPoint 0 100 1000 128 10 true) gestureEngine));
      vm_compute; reflexivity. }
  split.
  { apply (proj1 (proj2 (gesture_gate_transitions
                    (mkTouchPoint 151 100 1100 128 10 true)
                    (snd (processTouch_xy 1000 0 100 gestureEngine)))));
      vm_compute; first [reflexivity | congruence]. }
  split.
  { apply (proj1 (proj2 (proj2 (gesture_gate_transitions
                    (mkTouchPoint 150 100 1100 128 10 true)
                    (snd (processTouch_xy 1000 0 100 gestureEngine))))));
      vm_compute; first [reflexivity | congruence]. }
  apply (proj2 (proj2 (proj2 (gesture_gate_transitions
                    (mkTouchPoint 10 10 2000 128 10 true)
                    (snd (processTouch_xy 1100 151 100
                            (snd (processTouch_xy 1000 0 100 gestureEngine))))))));
    vm_compute; first [reflexivity | congruence].
Defined.

(** ** C7 and C8: calibration *)

(** C7 as stated fails on a resistive panel: the wet preset allows one
    simultaneous touch, and so does the normal preset. *)
Lemma resistive_wet_not_fewer_touches :
  maxSimultaneousTouches
    (config (calibrateForEnvironment true resistiveEngine)) = 1 /\
  maxSimultaneousTouches
    (config (calibrateForEnvironment false resistiveEngine)) = 1 /\
  ~ (maxSimultaneousTouches
       (config (calibrateForEnvironment true resistiveEngine))
     < maxSimultaneousTouches
         (config (calibrateForEnvironment false resistiveEngine))).
Proof. vm_compute. repeat split; try reflexivity. intros H; discriminate H. Qed.

(** C7, amended.  For engines of the same technology, the wet calibration
    sets a strictly smaller maximal touch area and a strictly shorter
    static time than the normal calibration, requires the gesture where
    the normal one does not, and never allows more simultaneous touches:
    strictly fewer on a capacitive panel (1 against 2), the same single
    touch on a resistive panel. *)
Theorem wet_calibration_stricter (sw sn : State) :
  screenType sw = screenType sn ->
  let wet := config (calibrateForEnvironment true sw) in
  let normal := config (calibrateForEnvironment false sn) in
  maxTouchArea wet < maxTouchArea normal /\
  maxStaticTime wet < maxStaticTime normal /\
  requireGesture wet = true /\ requireGesture normal = false /\
  maxSimultaneousTouches wet <= maxSimultaneousTouches normal /\
  (screenType sw = SCREEN_CAPACITIVE ->
     maxSimultaneousTouches wet < maxSimultaneousTouches normal) /\
  (screenType sw = SCREEN_RESISTIVE ->
     maxSimultaneousTouches wet = 1 /\ maxSimultaneousTouches normal = 1).
Proof.
  intros Hty. unfold calibrateForEnvironment. rewrite <- Hty.
  destruct (screenType sw); simpl; repeat split; try lia; discriminate.
Qed.

Lemma wet_calibration_stricter_witness :
  maxTouchArea (config (calibrateForEnvironment true resistiveEngine))
    < maxTouchArea (config (calibrateForEnvironment false
                              (setMaxTouchArea 7 resistiveEngine))).
Proof.
  refine (proj1 (wet_calibration_stricter resistiveEngine
                   (setMaxTouchArea 7 resistiveEngine) _)).
  vm_compute. reflexivity.
Defined.

(** C8 as stated fails: two capacitive engines that differ only in an
    earlier override of [minMovement] still differ after the same
    calibration call, so the result is not a function of technology and
    environment alone. *)
Lemma calibration_keeps_overrides :
  minMovement
    (config (calibrateForEnvironment true
               (setConfig (cfg_set_minMovement 42 (defaultConfig SCREEN_CAPACITIVE))
                  capacitiveEngine))) = 42 /\
  minMovement (config (calibrateForEnvironment true capacitiveEngine)) = 5.
Proof. split; reflexivity. Qed.

(** C8, amended.  The calibration selector overwrites exactly the maximal
    touch area, the maximal static time, the maximal number of
    simultaneous touches and the gesture requirement (and, on a resistive
    panel, the pressure threshold) with values fixed by technology and
    environment; every other field of the configuration (minimal
    movement, zone timeout, gesture timeout, edge-swipe threshold, minimal
    swipe distance, debounce interval, and the pressure threshold of a
    capacitive panel) keeps the value it had before the call. *)
Theorem calibrateForEnvironment_fields (wet : bool) (s : State) :
  let c := config s in
  let c' := config (calibrateForEnvironment wet s) in
  (maxTouchArea c', maxStaticTime c', maxSimultaneousTouches c', requireGesture c')
    = match screenType s, wet with
      | SCREEN_RESISTIVE, true => (60, 400, 1, true)
      | SCREEN_RESISTIVE, false => (80, 800, 1, false)
      | SCREEN_CAPACITIVE, true => (30, 300, 1, true)
      | SCREEN_CAPACITIVE, false => (50, 500, 2, false)
      end
  /\ pressureThreshold c'
     = match screenType s, wet with
       | SCREEN_RESISTIVE, true => 400
       | SCREEN_RESISTIVE, false => 300
       | SCREEN_CAPACITIVE, _ => pressureThreshold c
       end
  /\ minMovement c' = minMovement c
  /\ touchTimeout c' = touchTimeout c
  /\ gestureTimeout c' = gestureTimeout c
  /\ edgeSwipeThreshold c' = edgeSwipeThreshold c
  /\ swipeMinDistance c' = swipeMinDistance c
  /\ debounceTime c' = debounceTime c.
Proof.
  unfold calibrateForEnvironment.
  destruct (screenType s), wet; simpl; repeat split; reflexivity.
Qed.

(** ** C9: the debounce fold *)

Lemma i16_abs_le (z : Z) : i16 (Z.abs z) <= Z.abs z.
Proof.
  unfold i16. pose proof (Z.abs_nonneg z).
  pose proof (Z.mod_le (Z.abs z + 32768) 65536 ltac:(lia) ltac:(lia)). lia.
Qed.

(** C9 as stated fails: on a resistive engine with debounce 50 ms and
    movement threshold 10, a repeat 10 ms after an accepted sample at the
    same position is rejected when its pressure is below the threshold,
    and a repeat one pixel to the right of a sample accepted on the last
    column is rejected as out of bounds. *)
Lemma debounce_repeat_rejected :
  screenType resistiveEngine = SCREEN_RESISTIVE
  /\ debounceTime (config resistiveEngine) = 50
  /\ minMovement (config resistiveEngine) = 10
  /\ fst (processTouch_xyp 1000 50 50 128 resistiveEngine) = true
  /\ fst (processTouch_xyp 1010 50 50 50
            (snd (processTouch_xyp 1000 50 50 128 resistiveEngine))) = false
  /\ fst (processTouch_xyp 1000 479 50 128 resistiveEngine) = true
  /\ fst (processTouch_xyp 1010 480 50 128
            (snd (processTouch_xyp 1000 479 50 128 resistiveEngine))) = false.
Proof. vm_compute. repeat split; reflexivity. Qed.

(** C9, amended.  On a resistive engine with a nonzero debounce interval,
    a sample that is inside the screen and passes the pressure check (the
    threshold is zero or the pressure reaches it), arrives within the
    debounce window of the debounce reference and lies within the
    movement threshold of it in both axes makes [processTouch] return
    accept and leaves every piece of engine state unchanged. *)
Theorem debounce_fold_accepts_unchanged (now : Z) (touch : TouchPoint) (s : State) :
  screenType s = SCREEN_RESISTIVE ->
  0 < debounceTime (config s) ->
  0 <= x touch < screenWidth s ->
  0 <= y touch < screenHeight s ->
  pressureThreshold (config s) <= 0 \/
    pressureThreshold (config s) <= pressure touch ->
  u32 (timestamp touch - lastValidTouchTime s) < debounceTime (config s) ->
  Z.abs (x touch - x (lastValidTouch s)) < minMovement (config s) ->
  Z.abs (y touch - y (lastValidTouch s)) < minMovement (config s) ->
  processTouch now touch s = (true, s).
Proof.
  intros Hty Hdeb Hx Hy Hp Hwin Hdx Hdy. unfold processTouch.
  assert (outOfBounds touch s = false) as ->.
  { unfold outOfBounds. rewrite !orb_false_iff, !Z.ltb_ge, !Z.leb_gt. lia. }
  unfold resistiveGate. rewrite Hty.
  assert (pressureTooLow touch s = false) as ->.
  { unfold pressureTooLow. rewrite andb_false_iff, !Z.ltb_ge. lia. }
  assert ((0 <? debounceTime (config s)) = true) as -> by (apply Z.ltb_lt; lia).
  assert (inDebounceWindow touch s = true) as ->
    by (unfold inDebounceWindow; apply Z.ltb_lt; lia).
  assert (samePosition touch s = true) as ->; [|reflexivity].
  unfold samePosition. rewrite andb_true_iff, !Z.ltb_lt.
  pose proof (i16_abs_le (x touch - x (lastValidTouch s))).
  pose proof (i16_abs_le (y touch - y (lastValidTouch s))). lia.
Qed.

Lemma debounce_fold_accepts_unchanged_witness :
  processTouch 1010 (mkTouchPoint 51 50 1010 128 25 true)
    (snd (processTouch_xyp 1000 50 50 128 resistiveEngine))
  = (true, snd (processTouch_xyp 1000 50 50 128 resistiveEngine)).
Proof.
  apply debounce_fold_accepts_unchanged;
    try (vm_compute; first [reflexivity | split; congruence | right; congruence]).
Defined.

(** ** C10: the zone update *)

Lemma zoneOf_bound (pos dim : Z) :
  0 <= pos < dim -> 0 <= zoneOf pos dim < ZONE_GRID_SIZE.
Proof.
  intros H. unfold zoneOf, u8, ZONE_GRID_SIZE.
  rewrite Z.quot_div_nonneg by lia.
  assert (0 <= pos * 20 / dim < 20) as Hq.
  { split; [apply Z.div_pos; lia|]. apply Z.div_lt_upper_bound; lia. }
  rewrite Z.mod_small; lia.
Qed.

Lemma getZone_setZone_eq (zs : list (list TouchZone)) (zx zy : Z) (z : TouchZone) :
  wfZones zs -> 0 <= zx < ZONE_GRID_SIZE -> 0 <= zy < ZONE_GRID_SIZE ->
  getZone (setZone zs zx zy z) zx zy = z.
Proof.
  intros [Hlen Hcols] Hx Hy. unfold getZone, setZone.
  rewrite list_lookup_alter_eq.
  destruct (lookup_lt_is_Some_2 zs (Z.to_nat zx)) as [col Hcol];
    [rewrite Hlen; unfold ZONE_GRID_SIZE in *; lia|].
  rewrite Hcol. simpl.
  rewrite list_lookup_insert_eq; [reflexivity|].
  rewrite (Forall_lookup_1 _ _ _ _ Hcols Hcol). unfold ZONE_GRID_SIZE in *; lia.
Qed.

Lemma getZone_setZone_ne (zs : list (list TouchZone)) (zx zy ox oy : Z) (z : TouchZone) :
  0 <= zx -> 0 <= zy -> 0 <= ox -> 0 <= oy -> (ox, oy) <> (zx, zy) ->
  getZone (setZone zs zx zy z) ox oy = getZone zs ox oy.
Proof.
  intros Hzx Hzy Hox Hoy Hne. unfold getZone, setZone.
  destruct (decide (Z.to_nat zx = Z.to_nat ox)) as [Heq|Hnx].
  - assert (zx = ox) as <- by lia. rewrite list_lookup_alter_eq.
    destruct (zs !! Z.to_nat zx) as [col|]; simpl; [|reflexivity].
    rewrite list_lookup_insert_ne; [reflexivity|].
    intros E. apply Hne. f_equal. lia.
  - rewrite list_lookup_alter_ne by exact Hnx. reflexivity.
Qed.

(** C10 as stated fails in its last part.  On the default capacitive
    engine, 255 taps at one point, one every 100 ms, are all accepted and
    bring the counter of the cell to 255; the next accepted tap takes it
    to 0: the counter decreases in the zone update itself, without any
    decay sweep. *)
Lemma zone_counter_wraps_to_zero :
  exists s255 : State,
    replayAccepted capacitiveEngine (tapsAt 100 100 1000 100 255) = Some s255
    /\ touchCount (getZone (zones s255) 4 6) = 255
    /\ fst (processTouch_xy 26500 100 100 s255) = true
    /\ touchCount
         (getZone (zones (snd (processTouch_xy 26500 100 100 s255))) 4 6) = 0.
Proof.
  eexists. split; [vm_compute; reflexivity|].
  vm_compute. repeat split; reflexivity.
Qed.

(** The zone update of an accepted sample (inside the screen, on a 20x20
    grid): the activation time is assigned the sample's timestamp before
    the comparison, so the cell is left active, with both times equal to
    the timestamp and its counter incremented modulo 256 whatever the
    time since its previous activation; no other cell changes. *)
Lemma updateZones_cell (touch : TouchPoint) (s : State) :
  wfZones (zones s) ->
  0 <= x touch < screenWidth s ->
  0 <= y touch < screenHeight s ->
  getZone (zones (updateZones touch s))
    (zoneOf (x touch) (screenWidth s)) (zoneOf (y touch) (screenHeight s))
  = mkTouchZone true (timestamp touch)
      (u8 (touchCount (getZone (zones s) (zoneOf (x touch) (screenWidth s))
                         (zoneOf (y touch) (screenHeight s))) + 1))
      (timestamp touch)
  /\ (0 <= touchCount (getZone (zones s) (zoneOf (x touch) (screenWidth s))
                           (zoneOf (y touch) (screenHeight s))) < 255 ->
      touchCount (getZone (zones (updateZones touch s))
                    (zoneOf (x touch) (screenWidth s))
                    (zoneOf (y touch) (screenHeight s)))
      = touchCount (getZone (zones s) (zoneOf (x touch) (screenWidth s))
                      (zoneOf (y touch) (screenHeight s))) + 1)
  /\ (touchCount (getZone (zones s) (zoneOf (x touch) (screenWidth s))
                      (zoneOf (y touch) (screenHeight s))) = 255 ->
      touchCount (getZone (zones (updateZones touch s))
                    (zoneOf (x touch) (screenWidth s))
                    (zoneOf (y touch) (screenHeight s))) = 0)
  /\ (forall ox oy : Z, 0 <= ox -> 0 <= oy ->
        (ox, oy) <> (zoneOf (x touch) (screenWidth s),
                     zoneOf (y touch) (screenHeight s)) ->
        getZone (zones (updateZones touch s)) ox oy = getZone (zones s) ox oy).
Proof.
  intros Hwf Hx Hy.
  pose proof (zoneOf_bound _ _ Hx) as Hzx.
  pose proof (zoneOf_bound _ _ Hy) as Hzy.
  assert (getZone (zones (updateZones touch s))
            (zoneOf (x touch) (screenWidth s)) (zoneOf (y touch) (screenHeight s))
          = mkTouchZone true (timestamp touch)
              (u8 (touchCount (getZone (zones s) (zoneOf (x touch) (screenWidth s))
                                 (zoneOf (y touch) (screenHeight s))) + 1))
              (timestamp touch)
          /\ (forall ox oy : Z, 0 <= ox -> 0 <= oy ->
                (ox, oy) <> (zoneOf (x touch) (screenWidth s),
                             zoneOf (y touch) (screenHeight s)) ->
                getZone (zones (updateZones touch s)) ox oy
                = getZone (zones s) ox oy)) as [Hcell Hrest].
  { unfold updateZones.
    assert ((zoneOf (x touch) (screenWidth s) <? ZONE_GRID_SIZE)
            && (zoneOf (y touch) (screenHeight s) <? ZONE_GRID_SIZE) = true) as ->.
    { rewrite andb_true_iff, !Z.ltb_lt. lia. }
    cbn [activationTime active touchCount lastTouchTime zones set_zones].
    assert (u32 (timestamp touch - timestamp touch) = 0) as ->
      by (rewrite Z.sub_diag; reflexivity).
    change (0 <? 100) with true. cbv iota.
    split; [apply getZone_setZone_eq; assumption|].
    intros ox oy Hox Hoy Hne. apply getZone_setZone_ne; try lia. exact Hne. }
  split; [exact Hcell|]. rewrite Hcell. cbn [touchCount].
  split; [|split; [|exact Hrest]].
  - intros Hc. unfold u8. apply Z.mod_small. lia.
  - intros ->. reflexivity.
Qed.


(** ** C5: the spread check of the zone-activity test *)

(** The double loop of [checkZoneActivity] visits the offset (0,0): its
    count is the count over the 8 neighbours plus one when the sample's
    own cell is active and recent. *)
Lemma countActiveNeighbors_counts_own_cell (now : Z) (s : State) (zoneX zoneY : Z) :
  countActiveNeighbors now s zoneX zoneY
  = countActiveNeighbors8 now s zoneX zoneY
    + (if neighborActive now s zoneX zoneY 0 0 then 1 else 0).
Proof.
  unfold countActiveNeighbors, countActiveNeighbors8.
  change neighborOffsets
    with [(-1, -1); (-1, 0); (-1, 1); (0, -1); (0, 0); (0, 1); (1, -1); (1, 0); (1, 1)].
  change (filter _ _)
    with [(-1, -1); (-1, 0); (-1, 1); (0, -1); (0, 1); (1, -1); (1, 0); (1, 1)].
  cbn [fold_left fst snd].
  repeat match goal with
         | |- context [if neighborActive ?a ?b ?c ?d ?e ?f then _ else _] =>
             destruct (neighborActive a b c d e f)
         end; lia.
Qed.

(** C5, at a failing input.  After accepted taps in the cell (5,5) and in
    its four edge neighbours, a tap in (5,5) at time 1500 finds 4 active
    neighbours among the 8, yet the loop counts 5 because it includes the
    cell itself: the sample is rejected and the rejected counter becomes
    1. *)
Theorem spread_check_counts_sample_cell :
  exists s : State,
    replayAccepted capacitiveEngine crossTaps = Some s
    /\ zoneOf 132 (screenWidth s) = 5 /\ zoneOf 88 (screenHeight s) = 5
    /\ countActiveNeighbors8 1500 s 5 5 = 4
    /\ countActiveNeighbors 1500 s 5 5 = 5
    /\ fst (checkZoneActivity 1500 5 5 s) = true
    /\ fst (processTouch_xy 1500 132 88 s) = false
    /\ waterDropletsRejected s = 0
    /\ waterDropletsRejected (snd (processTouch_xy 1500 132 88 s)) = 1.
Proof.
  eexists. split; [vm_compute; reflexivity|].
  vm_compute. repeat split; reflexivity.
Qed.

(** ** C6: the colinearity test *)

(** C6, at failing inputs.  Three touches on the diagonal (0,0),
    (100,100), (200,200) are exactly colinear (Pearson coefficient 1:
    cov^2 = varX * varY), the cluster is sparse, yet the value the code
    computes for [correlation] is about 0.577 (9686330 * 2^-24) and the
    batch is not rejected.  For three touches on a vertical line the
    denominator is 0 and nothing guards it: [correlation] is 0/0 = NaN,
    the comparison is false and the batch passes. *)
Theorem colinear_batches_not_rejected :
  pearsonCov diagonalBatch * pearsonCov diagonalBatch
    = pearsonVarX diagonalBatch * pearsonVarY diagonalBatch
  /\ pearsonExceeds09 diagonalBatch = true
  /\ correlation (batchLoaded diagonalBatch 3 multiEngine)
     = S754_finite false 9686330 (-24)
  /\ checkMultiTouchPattern (batchLoaded diagonalBatch 3 multiEngine) = false
  /\ fst (processMultiTouch 1000 diagonalBatch 3 multiEngine) = true
  /\ pearsonVarX verticalBatch = 0
  /\ correlation (batchLoaded verticalBatch 3 multiEngine) = S754_nan
  /\ checkMultiTouchPattern (batchLoaded verticalBatch 3 multiEngine) = false
  /\ fst (processMultiTouch 1000 verticalBatch 3 multiEngine) = true.
Proof. vm_compute. repeat split; reflexivity. Qed.

(** ** C4: the static-touch test *)

Lemma historyFrame_refl (s : State) : historyFrame s s.
Proof. repeat split. Qed.

Lemma historyFrame_trans (s1 s2 s3 : State) :
  historyFrame s1 s2 -> historyFrame s2 s3 -> historyFrame s1 s3.
Proof. unfold historyFrame. intros (?&?&?) (?&?&?). repeat split; congruence. Qed.

Lemma validateGesture_historyFrame (touch : TouchPoint) (s : State) :
  historyFrame s (snd (validateGesture touch s)).
Proof.
  unfold validateGesture.
  destruct (gestureState s); repeat case_match; repeat split.
Qed.

Lemma isWaterPattern_historyFrame (now : Z) (touch : TouchPoint) (s : State) :
  historyFrame s (snd (isWaterPattern now touch s)).
Proof.
  unfold isWaterPattern, checkZoneActivity. repeat case_match; repeat split.
Qed.

Lemma updateZones_historyFrame (touch : TouchPoint) (s : State) :
  historyFrame s (updateZones touch s).
Proof. unfold updateZones. case_match; repeat split. Qed.

(** An accepted and counted sample is the one [updateHistory] stored. *)
Lemma processTouch_counted (now : Z) (t : TouchPoint) (s s1 : State) :
  processTouch now t s = (true, s1) ->
  validTouches s1 <> validTouches s ->
  (touchHistory s1, historyIndex s1)
    = ringPush (touchHistory s, historyIndex s) t
  /\ config s1 = config s.
Proof.
  unfold processTouch. intros Hrun Hcount.
  destruct (outOfBounds t s); [discriminate|].
  destruct (resistiveGate t s) as [r|].
  { injection Hrun as -> <-. now contradict Hcount. }
  assert (historyFrame s
            (snd (if requireGesture (config s) then validateGesture t s
                  else (true, s)))) as Hg.
  { destruct (requireGesture (config s));
      [apply validateGesture_historyFrame|apply historyFrame_refl]. }
  destruct (if requireGesture (config s) then validateGesture t s else (true, s))
    as [approved sg].
  simpl in Hg. destruct approved; [|discriminate]. simpl in Hrun.
  pose proof (isWaterPattern_historyFrame now t sg) as Hw.
  destruct (isWaterPattern now t sg) as [water sw]. simpl in Hw.
  destruct water; [discriminate|].
  destruct (isStaticTouch t sw); [discriminate|].
  injection Hrun as <-.
  destruct (historyFrame_trans _ _ _ Hg Hw) as (Hh & Hi & Hc).
  destruct (updateZones_historyFrame t (updateHistory t sw)) as (Hh' & Hi' & Hc').
  cbn [touchHistory historyIndex config set_validTouches set_lastValid].
  rewrite Hh', Hi', Hc'. unfold updateHistory, ringPush.
  cbn [touchHistory historyIndex config set_touchHistory set_historyIndex fst snd].
  rewrite Hh, Hi, Hc. split; reflexivity.
Qed.

Lemma acceptedRun_ring (s : State) (ts : list TouchPoint) (s' : State) :
  acceptedRun s ts s' ->
  (touchHistory s', historyIndex s')
    = fold_left ringPush ts (touchHistory s, historyIndex s).
Proof.
  induction 1 as [s|s now t s1 ts s' Hrun Hcount _ IH|s s1 ts s' Hh Hi _ IH];
    [reflexivity| |].
  - destruct (processTouch_counted _ _ _ _ Hrun Hcount) as [Hpush _].
    simpl. rewrite <- Hpush. exact IH.
  - rewrite IH, Hh, Hi. reflexivity.
Qed.

Lemma replayAccepted_acceptedRun (l : list (Z * TouchPoint)) (s s' : State) :
  replayAccepted s l = Some s' -> acceptedRun s (map snd l) s'.
Proof.
  revert s. induction l as [|[now t] l IH]; intros s; simpl.
  - intros [= <-]. constructor.
  - destruct (processTouch now t s) as [r s1] eqn:Hrun.
    destruct r; simpl; [|discriminate].
    destruct (validTouches s1 =? validTouches s) eqn:Hv; simpl; [discriminate|].
    intros Hrest. apply Z.eqb_neq in Hv.
    exact (acceptedRun_cons _ _ _ _ _ _ Hrun Hv (IH _ Hrest)).
Qed.

Lemma staticCount_sumMatches (touch : TouchPoint) (s : State) :
  staticCount touch s
  = sumMatches (staticMatch (config s) touch) (touchHistory s).
Proof.
  unfold staticCount, sumMatches.
  enough (forall l acc,
             fold_left (fun c h => if staticMatch (config s) touch h
                                   then c + 1 else c) l acc
             = acc + fold_right (fun h a => Z.b2z (staticMatch (config s) touch h) + a) 0 l)
    as H by (rewrite H; lia).
  induction l as [|h l IH]; intros acc; simpl; [lia|].
  rewrite IH. destruct (staticMatch (config s) touch h); simpl; lia.
Qed.



Section Ring.
Variable P : TouchPoint -> bool.





End Ring.

(** The history keeps its 20 slots and a cursor inside them. *)
Lemma wfHistory_constructed (ty : ScreenType) (w h : Z) (cfg : WaterRejectionConfig) :
  wfHistory (begin_with cfg (WaterRejectionTouch ty w h)).
Proof. split; [reflexivity|]. simpl. unfold HISTORY_SIZE. lia. Qed.

Lemma wfHistory_ringPush (s s' : State) (t : TouchPoint) :
  wfHistory s ->
  (touchHistory s', historyIndex s') = ringPush (touchHistory s, historyIndex s) t ->
  wfHistory s'.
Proof.
  unfold wfHistory, ringPush, HISTORY_SIZE. simpl.
  intros [Hlen Hidx] [= -> ->]. rewrite length_insert. split; [exact Hlen|].
  unfold u8. rewrite Z.rem_mod_nonneg by lia.
  pose proof (Z.mod_pos_bound (historyIndex s + 1) 20 ltac:(lia)).
  rewrite Z.mod_small; lia.
Qed.

Lemma wfHistory_acceptedRun (s : State) (ts : list TouchPoint) (s' : State) :
  acceptedRun s ts s' -> wfHistory s -> wfHistory s'.
Proof.
  induction 1 as [s|s now t s1 ts s' Hrun Hcount _ IH|s s1 ts s' Hh Hi _ IH];
    [auto| |].
  - intros Hwf. apply IH.
    destruct (processTouch_counted _ _ _ _ Hrun Hcount) as [Hpush _].
    exact (wfHistory_ringPush _ _ _ Hwf Hpush).
  - intros Hwf. apply IH. unfold wfHistory in *. now rewrite Hh, Hi.
Qed.

(** The steps a run may take between accepted samples: a call of
    [processTouch] that is not counted, and the periodic [update], leave
    the history and its cursor alone. *)
Lemma uncounted_steps_keep_history (now : Z) (touch : TouchPoint) (s : State) :
  (validTouches (snd (processTouch now touch s)) = validTouches s ->
   touchHistory (snd (processTouch now touch s)) = touchHistory s
   /\ historyIndex (snd (processTouch now touch s)) = historyIndex s)
  /\ touchHistory (update now s) = touchHistory s
  /\ historyIndex (update now s) = historyIndex s.
Proof.
  split.
  - unfold processTouch.
    destruct (outOfBounds touch s); [auto|].
    destruct (resistiveGate touch s); [auto|].
    assert (stageFrame s
              (snd (if requireGesture (config s) then validateGesture touch s
                    else (true, s)))) as Hf.
    { destruct (requireGesture (config s));
        [apply validateGesture_stageFrame|apply stageFrame_refl]. }
    destruct (if requireGesture (config s) then validateGesture touch s
              else (true, s)) as [approved sg].
    simpl in Hf. destruct approved; simpl;
      [|destruct Hf as (?&?&_); auto].
    pose proof (isWaterPattern_stageFrame now touch sg) as Hw.
    destruct (isWaterPattern now touch sg) as [water sw]. simpl in Hw.
    pose proof (stageFrame_trans _ _ _ Hf Hw) as (Hh & Hi & _ & _ & _ & _ & _ & _ & Hv & _).
    destruct water; simpl; [auto|].
    destruct (isStaticTouch touch sw); simpl; [auto|].
    destruct (updateZones_stageFrame touch (updateHistory touch sw))
      as (_&_&_&_&_&_&_&_&Hv'&_).
    rewrite Hv'. cbn [validTouches updateHistory set_historyIndex set_touchHistory].
    rewrite Hv. intros E. now apply u32_succ_neq in E.
  - unfold update. cbn. repeat case_match; auto.
Qed.






(** ** The arrays stay well formed *)

Lemma wfZones_constructed (ty : ScreenType) (w h : Z) (cfg : WaterRejectionConfig) :
  wfZones (zones (begin_with cfg (WaterRejectionTouch ty w h))).
Proof. split; [reflexivity|]. apply Forall_replicate. reflexivity. Qed.

Lemma wfZones_setZone (zs : list (list TouchZone)) (zx zy : Z) (z : TouchZone) :
  wfZones zs -> wfZones (setZone zs zx zy z).
Proof.
  intros [Hlen Hcols]. unfold setZone. split; [now rewrite length_alter|].
  apply Forall_alter; [exact Hcols|].
  intros col _ Hcol. now rewrite length_insert.
Qed.

Lemma validateGesture_zones (touch : TouchPoint) (s : State) :
  zones (snd (validateGesture touch s)) = zones s.
Proof.
  unfold validateGesture.
  destruct (gestureState s); repeat case_match; reflexivity.
Qed.

Lemma isWaterPattern_wfZones (now : Z) (touch : TouchPoint) (s : State) :
  wfZones (zones s) -> wfZones (zones (snd (isWaterPattern now touch s))).
Proof.
  intros Hwf. unfold isWaterPattern, checkZoneActivity.
  repeat case_match; simpl; auto using wfZones_setZone.
Qed.

Lemma updateZones_wfZones (touch : TouchPoint) (s : State) :
  wfZones (zones s) -> wfZones (zones (updateZones touch s)).
Proof.
  intros Hwf. unfold updateZones.
  repeat case_match; simpl; auto using wfZones_setZone.
Qed.

Lemma processTouch_wfZones (now : Z) (touch : TouchPoint) (s : State) :
  wfZones (zones s) -> wfZones (zones (snd (processTouch now touch s))).
Proof.
  intros Hwf. unfold processTouch.
  destruct (outOfBounds touch s); [exact Hwf|].
  destruct (resistiveGate touch s); [exact Hwf|].
  assert (wfZones (zones (snd (if requireGesture (config s)
                               then validateGesture touch s else (true, s)))))
    as Hg.
  { destruct (requireGesture (config s)); [|exact Hwf].
    now rewrite validateGesture_zones. }
  destruct (if requireGesture (config s) then validateGesture touch s
            else (true, s)) as [approved s1].
  simpl in Hg. destruct approved; simpl; [|exact Hg].
  pose proof (isWaterPattern_wfZones now touch s1 Hg) as Hw.
  destruct (isWaterPattern now touch s1) as [water s2]. simpl in Hw.
  destruct water; simpl; [exact Hw|].
  destruct (isStaticTouch touch s2); simpl; [exact Hw|].
  apply updateZones_wfZones. exact Hw.
Qed.

Lemma wfHistory_frame (s s' : State) :
  historyFrame s s' -> wfHistory s -> wfHistory s'.
Proof. unfold historyFrame, wfHistory. intros (-> & -> & _). auto. Qed.

Lemma processTouch_wfHistory (now : Z) (touch : TouchPoint) (s : State) :
  wfHistory s -> wfHistory (snd (processTouch now touch s)).
Proof.
  intros Hwf. unfold processTouch.
  destruct (outOfBounds touch s); [exact Hwf|].
  destruct (resistiveGate touch s); [exact Hwf|].
  assert (wfHistory (snd (if requireGesture (config s)
                          then validateGesture touch s else (true, s)))) as Hg.
  { destruct (requireGesture (config s)); [|exact Hwf].
    exact (wfHistory_frame _ _ (validateGesture_historyFrame touch s) Hwf). }
  destruct (if requireGesture (config s) then validateGesture touch s
            else (true, s)) as [approved s1].
  simpl in Hg. destruct approved; simpl; [|exact Hg].
  pose proof (wfHistory_frame _ _ (isWaterPattern_historyFrame now touch s1) Hg)
    as Hw.
  destruct (isWaterPattern now touch s1) as [water s2]. simpl in Hw.
  destruct water; simpl; [exact Hw|].
  destruct (isStaticTouch touch s2); simpl; [exact Hw|].
  apply (wfHistory_frame (updateZones touch (updateHistory touch s2)));
    [repeat split|].
  apply (wfHistory_frame _ _ (updateZones_historyFrame touch _)).
  exact (wfHistory_ringPush s2 (updateHistory touch s2) touch Hw eq_refl).
Qed.

(** ** A remark on the resistive defaults *)

(** X16.  The default pressure threshold of a resistive panel (300) is above
    every value an 8-bit pressure can take, so with the default
    configuration the pressure check rejects every sample inside the
    screen before the debounce is reached. *)
Lemma default_resistive_rejects_every_sample
  (now : Z) (touch : TouchPoint) (s : State) :
  screenType s = SCREEN_RESISTIVE ->
  config s = defaultConfig SCREEN_RESISTIVE ->
  0 <= pressure touch <= 255 ->
  processTouch now touch s = (false, s).
Proof.
  intros Hty Hcfg Hp. unfold processTouch.
  destruct (outOfBounds touch s); [reflexivity|].
  unfold resistiveGate. rewrite Hty.
  assert (pressureTooLow touch s = true) as ->; [|reflexivity].
  unfold pressureTooLow. rewrite Hcfg. simpl.
  apply Z.ltb_lt. lia.
Qed.

(** * Further properties of the engine *)

(** ** What a call of [processTouch] may change *)

(** The state in which [processTouch] runs its water tests, and the state
    they leave, when the sample gets that far. *)
Lemma processTouch_stages (now : Z) (touch : TouchPoint) (s : State) :
  outOfBounds touch s = false ->
  resistiveGate touch s = None ->
  exists (approved : bool) (sg : State),
    (if requireGesture (config s) then validateGesture touch s else (true, s))
      = (approved, sg)
    /\ stageFrame s sg
    /\ (approved = false -> processTouch now touch s = (false, sg))
    /\ (approved = true ->
        exists (water : bool) (sw : State),
          isWaterPattern now touch sg = (water, sw)
          /\ stageFrame s sw /\ sameGesture sg sw
          /\ processTouch now touch s
             = if water || isStaticTouch touch sw
               then (false, set_waterDropletsRejected
                              (u32 (waterDropletsRejected sw + 1)) sw)
               else (true, acceptSample touch sw)).
Proof.
  intros Hb Hg. unfold processTouch. rewrite Hb, Hg.
  assert (stageFrame s
            (snd (if requireGesture (config s) then validateGesture touch s
                  else (true, s)))) as Hf.
  { destruct (requireGesture (config s));
      [apply validateGesture_stageFrame|apply stageFrame_refl]. }
  destruct (if requireGesture (config s) then validateGesture touch s
            else (true, s)) as [approved sg].
  simpl in Hf. exists approved, sg. split; [reflexivity|]. split; [exact Hf|].
  split; [intros ->; reflexivity|]. intros ->. simpl.
  pose proof (isWaterPattern_stageFrame now touch sg) as Hw.
  pose proof (isWaterPattern_sameGesture now touch sg) as Hwg.
  destruct (isWaterPattern now touch sg) as [water sw]. simpl in Hw, Hwg.
  exists water, sw. split; [reflexivity|].
  split; [exact (stageFrame_trans _ _ _ Hf Hw)|]. split; [exact Hwg|].
  destruct water; simpl; [reflexivity|].
  destruct (isStaticTouch touch sw); reflexivity.
Qed.

(** Every path of [processTouch], with the frame of the state it returns. *)
Lemma processTouch_cases (now : Z) (touch : TouchPoint) (s : State) :
  processTouch now touch s = (false, s)
  \/ processTouch now touch s = (true, s)
  \/ (exists sg : State,
        processTouch now touch s = (false, sg) /\ stageFrame s sg)
  \/ (exists sw : State,
        processTouch now touch s
          = (false, set_waterDropletsRejected
                      (u32 (waterDropletsRejected sw + 1)) sw)
        /\ stageFrame s sw)
  \/ (exists sw : State,
        processTouch now touch s = (true, acceptSample touch sw)
        /\ stageFrame s sw /\ outOfBounds touch s = false).
Proof.
  destruct (outOfBounds touch s) eqn:Hb.
  { left. unfold processTouch. now rewrite Hb. }
  destruct (resistiveGate touch s) as [[|]|] eqn:Hg.
  - right; left. unfold processTouch. now rewrite Hb, Hg.
  - left. unfold processTouch. now rewrite Hb, Hg.
  - destruct (processTouch_stages now touch s Hb Hg)
      as (approved & sg & _ & Hf & Hrej & Hacc).
    destruct approved.
    + destruct (Hacc eq_refl) as (water & sw & _ & Hfw & _ & Hrun).
      destruct (water || isStaticTouch touch sw).
      * right; right; right; left. exists sw. auto.
      * right; right; right; right. exists sw. auto.
    + right; right; left. exists sg. auto.
Qed.

(** X1.  No call of [processTouch] changes the configuration, the screen
    dimensions, the screen type or the multi-touch buffer. *)
Theorem processTouch_sameSettings (now : Z) (touch : TouchPoint) (s : State) :
  sameSettings s (snd (processTouch now touch s)).
Proof.
  destruct (processTouch_cases now touch s)
    as [H|[H|[(sg & H & Hf)|[(sw & H & Hf)|(sw & H & Hf & _)]]]];
    rewrite H; simpl; try (repeat split; fail).
  - destruct Hf as (?&?&?&?&?&?&?&?&?&?&?&?). repeat split; assumption.
  - destruct Hf as (?&?&?&?&?&?&?&?&?&?&?&?). repeat split; assumption.
  - destruct Hf as (?&?&?&?&?&?&?&?&?&?&?&?).
    destruct (updateZones_stageFrame touch (updateHistory touch sw))
      as (?&?&?&?&?&?&?&?&?&?&?&?).
    unfold sameSettings, acceptSample. simpl in *. repeat split; congruence.
Qed.

(** X2.  The two counters of [processTouch]: a rejected call never
    advances the accepted counter; an accepted call never advances the
    rejected counter, and either advances the accepted counter by one
    (modulo 2^32) or, as a debounce fold, leaves the whole state
    unchanged. *)
Theorem processTouch_counters (now : Z) (touch : TouchPoint) (s : State) :
  (fst (processTouch now touch s) = false ->
   validTouches (snd (processTouch now touch s)) = validTouches s)
  /\ (fst (processTouch now touch s) = true ->
      waterDropletsRejected (snd (processTouch now touch s))
        = waterDropletsRejected s
      /\ (validTouches (snd (processTouch now touch s))
            = u32 (validTouches s + 1)
          \/ snd (processTouch now touch s) = s)).
Proof.
  destruct (processTouch_cases now touch s)
    as [H|[H|[(sg & H & Hf)|[(sw & H & Hf)|(sw & H & Hf & _)]]]];
    rewrite H; simpl; (split; [intros E|intros E]); try discriminate; auto.
  - destruct Hf as (?&?&?&?&?&?&?&?&?&?&?&?). assumption.
  - destruct Hf as (?&?&?&?&?&?&?&?&?&?&?&?). assumption.
  - destruct Hf as (?&?&?&?&?&?&?&?&?&?&?&?).
    destruct (updateZones_stageFrame touch (updateHistory touch sw))
      as (?&?&?&?&?&?&?&?&?&?&?&?).
    unfold acceptSample. split; [simpl in *; congruence|].
    left. simpl in *. congruence.
Qed.

Lemma in_bounds_of_outOfBounds (touch : TouchPoint) (s : State) :
  outOfBounds touch s = false ->
  0 <= x touch < screenWidth s /\ 0 <= y touch < screenHeight s.
Proof.
  unfold outOfBounds. rewrite !orb_false_iff, !Z.ltb_ge, !Z.leb_gt. lia.
Qed.

Lemma outOfBounds_of_in_bounds (touch : TouchPoint) (s : State) :
  0 <= x touch < screenWidth s -> 0 <= y touch < screenHeight s ->
  outOfBounds touch s = false.
Proof.
  unfold outOfBounds. rewrite !orb_false_iff, !Z.ltb_ge, !Z.leb_gt. lia.
Qed.

(** The form of the state after a counted accept. *)
Lemma processTouch_accepted_form (now : Z) (touch : TouchPoint) (s s' : State) :
  processTouch now touch s = (true, s') ->
  validTouches s' <> validTouches s ->
  exists sw : State,
    s' = acceptSample touch sw /\ stageFrame s sw
    /\ (wfZones (zones s) -> wfZones (zones sw))
    /\ outOfBounds touch s = false.
Proof.
  intros Hrun Hcount.
  destruct (outOfBounds touch s) eqn:Hb.
  { unfold processTouch in Hrun. rewrite Hb in Hrun. discriminate. }
  destruct (resistiveGate touch s) as [r|] eqn:Hg.
  { unfold processTouch in Hrun. rewrite Hb, Hg in Hrun.
    injection Hrun as -> <-. now contradict Hcount. }
  destruct (processTouch_stages now touch s Hb Hg)
    as (approved & sg & Hgate & Hf & Hrej & Hacc).
  destruct approved; [|rewrite (Hrej eq_refl) in Hrun; discriminate].
  destruct (Hacc eq_refl) as (water & sw & Hwater & Hfw & _ & Hrun').
  rewrite Hrun' in Hrun.
  destruct (water || isStaticTouch touch sw); [discriminate|].
  injection Hrun as <-. exists sw. split; [reflexivity|]. split; [exact Hfw|].
  split; [|reflexivity]. intros Hwf.
  assert (wfZones (zones sg)) as Hwg.
  { destruct (requireGesture (config s)).
    - apply (f_equal snd) in Hgate. simpl in Hgate. subst sg.
      now rewrite validateGesture_zones.
    - injection Hgate as <-. exact Hwf. }
  pose proof (isWaterPattern_wfZones now touch sg Hwg) as H.
  now rewrite Hwater in H.
Qed.

(** X3.  What an accepted, counted sample leaves behind: it is the new
    debounce reference, it sits in the history slot the cursor pointed
    at, the cursor has advanced by one modulo 20, and its grid cell is
    active with both times equal to the sample's timestamp. *)
Theorem processTouch_accept_records
  (now : Z) (touch : TouchPoint) (s s' : State) :
  wfHistory s -> wfZones (zones s) ->
  processTouch now touch s = (true, s') ->
  validTouches s' <> validTouches s ->
  lastValidTouch s' = touch
  /\ lastValidTouchTime s' = timestamp touch
  /\ touchHistory s' !! Z.to_nat (historyIndex s) = Some touch
  /\ historyIndex s' = (historyIndex s + 1) mod HISTORY_SIZE
  /\ active (getZone (zones s') (zoneOf (x touch) (screenWidth s))
               (zoneOf (y touch) (screenHeight s))) = true
  /\ activationTime (getZone (zones s') (zoneOf (x touch) (screenWidth s))
                       (zoneOf (y touch) (screenHeight s))) = timestamp touch
  /\ lastTouchTime (getZone (zones s') (zoneOf (x touch) (screenWidth s))
                      (zoneOf (y touch) (screenHeight s))) = timestamp touch.
Proof.
  intros [Hlen Hidx] Hwz Hrun Hcount.
  destruct (processTouch_accepted_form _ _ _ _ Hrun Hcount)
    as (sw & -> & Hf & Hwf & Hb).
  destruct Hf as (Hh & Hi & Hw & Hhh & _).
  destruct (in_bounds_of_outOfBounds _ _ Hb) as [Hx Hy].
  pose proof (zoneOf_bound _ _ Hx) as Hzx.
  pose proof (zoneOf_bound _ _ Hy) as Hzy.
  destruct (updateZones_stageFrame touch (updateHistory touch sw))
    as (Hh' & Hi' & _).
  unfold acceptSample. cbn [lastValidTouch lastValidTouchTime touchHistory
    historyIndex zones set_validTouches set_lastValid].
  split; [reflexivity|]. split; [reflexivity|].
  rewrite Hh', Hi'. unfold updateHistory.
  cbn [touchHistory historyIndex set_touchHistory set_historyIndex].
  rewrite Hh, Hi. split.
  { apply list_lookup_insert_eq. rewrite Hlen. unfold HISTORY_SIZE in *. lia. }
  split.
  { unfold u8, HISTORY_SIZE in *. rewrite Z.rem_mod_nonneg by lia.
    pose proof (Z.mod_pos_bound (historyIndex s + 1) 20 ltac:(lia)).
    apply Z.mod_small. lia. }
  unfold updateZones.
  cbn [screenWidth screenHeight zones set_touchHistory set_historyIndex].
  rewrite Hw, Hhh.
  assert ((zoneOf (x touch) (screenWidth s) <? ZONE_GRID_SIZE)
          && (zoneOf (y touch) (screenHeight s) <? ZONE_GRID_SIZE) = true) as ->.
  { rewrite andb_true_iff, !Z.ltb_lt. lia. }
  cbn [zones set_zones].
  rewrite getZone_setZone_eq by auto.
  repeat case_match; repeat split.
Qed.

Lemma processTouch_accept_records_witness :
  lastValidTouch (snd (processTouch_xy 1000 100 100 capacitiveEngine))
  = mkTouchPoint 100 100 1000 128 10 true.
Proof.
  apply (proj1 (processTouch_accept_records 1000
                  (mkTouchPoint 100 100 1000 128 10 true) capacitiveEngine
                  (snd (processTouch_xy 1000 100 100 capacitiveEngine))
                  (wfHistory_constructed _ _ _ _)
                  (wfZones_constructed _ _ _ _)
                  ltac:(vm_compute; reflexivity)
                  ltac:(vm_compute; congruence))).
Defined.

(** X4.  On a capacitive engine without the gesture requirement, a sample
    inside the screen whose area exceeds [maxTouchArea] is rejected
    wherever it lies, and the call changes nothing but the rejected
    counter, which advances by one. *)
Theorem oversized_touch_rejected (now : Z) (touch : TouchPoint) (s : State) :
  screenType s = SCREEN_CAPACITIVE ->
  requireGesture (config s) = false ->
  0 <= x touch < screenWidth s ->
  0 <= y touch < screenHeight s ->
  maxTouchArea (config s) < area touch ->
  processTouch now touch s
  = (false, set_waterDropletsRejected (u32 (waterDropletsRejected s + 1)) s).
Proof.
  intros Hty Hreq Hx Hy Harea. unfold processTouch.
  rewrite (outOfBounds_of_in_bounds _ _ Hx Hy).
  unfold resistiveGate. rewrite Hty, Hreq. simpl.
  rewrite isWaterPattern_area by (apply Z.ltb_lt; exact Harea). reflexivity.
Qed.

Lemma oversized_touch_rejected_witness :
  processTouch 1000 (mkTouchPoint 100 100 1000 128 51 true) capacitiveEngine
  = (false, set_waterDropletsRejected 1 capacitiveEngine).
Proof.
  apply (oversized_touch_rejected 1000 (mkTouchPoint 100 100 1000 128 51 true)
           capacitiveEngine);
    vm_compute; first [reflexivity | split; congruence].
Defined.

(** ** A freshly started engine *)

Lemma getZone_fresh (zx zy : Z) :
  getZone (replicate (Z.to_nat ZONE_GRID_SIZE)
             (replicate (Z.to_nat ZONE_GRID_SIZE) zeroZone)) zx zy = zeroZone.
Proof.
  unfold getZone.
  destruct (replicate _ _ !! Z.to_nat zx) as [col|] eqn:Hcol; [|reflexivity].
  apply lookup_replicate in Hcol as [-> _].
  destruct (replicate _ _ !! Z.to_nat zy) as [z|] eqn:Hz; [|reflexivity].
  now apply lookup_replicate in Hz as [-> _].
Qed.

Lemma staticMatch_zeroTouch (cfg : WaterRejectionConfig) (touch : TouchPoint) :
  staticMatch cfg touch zeroTouch = false.
Proof. reflexivity. Qed.

(** X5.  After [begin], a capacitive engine without the gesture
    requirement accepts the first sample it is given, whenever the sample
    is inside the screen and its area does not exceed [maxTouchArea]: the
    grid is inactive and the history empty, so no water test can hit. *)
Theorem fresh_engine_accepts_first_sample
  (now : Z) (touch : TouchPoint) (cfg : WaterRejectionConfig) (w h : Z) :
  requireGesture cfg = false ->
  0 <= x touch < w -> 0 <= y touch < h ->
  area touch <= maxTouchArea cfg ->
  fst (processTouch now touch
         (begin_with cfg (WaterRejectionTouch SCREEN_CAPACITIVE w h))) = true
  /\ validTouches (snd (processTouch now touch
         (begin_with cfg (WaterRejectionTouch SCREEN_CAPACITIVE w h)))) = 1
  /\ waterDropletsRejected (snd (processTouch now touch
         (begin_with cfg (WaterRejectionTouch SCREEN_CAPACITIVE w h)))) = 0.
Proof.
  intros Hreq Hx Hy Harea.
  set (s0 := begin_with cfg (WaterRejectionTouch SCREEN_CAPACITIVE w h)).
  assert (processTouch now touch s0 = (true, acceptSample touch s0)) as ->.
  { unfold processTouch.
    rewrite (outOfBounds_of_in_bounds touch s0 Hx Hy).
    change (resistiveGate touch s0) with (@None bool).
    change (config s0) with cfg. rewrite Hreq. cbn [negb].
    assert (isWaterPattern now touch s0 = (false, s0)) as ->.
    { unfold isWaterPattern. change (config s0) with cfg.
      assert ((maxTouchArea cfg <? area touch) = false) as ->
        by (apply Z.ltb_ge; lia).
      change (screenWidth s0) with w. change (screenHeight s0) with h.
      pose proof (zoneOf_bound _ _ Hx). pose proof (zoneOf_bound _ _ Hy).
      assert ((ZONE_GRID_SIZE <=? zoneOf (x touch) w)
              || (ZONE_GRID_SIZE <=? zoneOf (y touch) h) = false) as ->.
      { rewrite orb_false_iff, !Z.leb_gt. lia. }
      unfold checkZoneActivity.
      change (zones s0) with (replicate (Z.to_nat ZONE_GRID_SIZE)
                                (replicate (Z.to_nat ZONE_GRID_SIZE) zeroZone)).
      rewrite getZone_fresh. cbn [active].
      assert (countActiveNeighbors now s0 (zoneOf (x touch) w)
                (zoneOf (y touch) h) = 0) as ->; [|reflexivity].
      unfold countActiveNeighbors, neighborActive.
      change (zones s0) with (replicate (Z.to_nat ZONE_GRID_SIZE)
                                (replicate (Z.to_nat ZONE_GRID_SIZE) zeroZone)).
      change neighborOffsets
        with [(-1, -1); (-1, 0); (-1, 1); (0, -1); (0, 0); (0, 1);
              (1, -1); (1, 0); (1, 1)].
      cbn [fold_left fst snd]. rewrite !getZone_fresh. cbn [active].
      rewrite !andb_false_r. reflexivity. }
    assert (isStaticTouch touch s0 = false) as ->; [|reflexivity].
    unfold isStaticTouch, staticCount.
    change (touchHistory s0) with (replicate 20%nat zeroTouch).
    cbn [replicate fold_left]. rewrite !staticMatch_zeroTouch. reflexivity. }
  split; [reflexivity|]. split.
  - unfold acceptSample. cbn [validTouches set_validTouches set_lastValid].
    destruct (updateZones_stageFrame touch (updateHistory touch s0))
      as (_&_&_&_&_&_&_&_&Hv&_).
    rewrite Hv. reflexivity.
  - unfold acceptSample.
    destruct (updateZones_stageFrame touch (updateHistory touch s0))
      as (_&_&_&_&_&_&_&Hr&_).
    exact Hr.
Qed.

Lemma fresh_engine_accepts_first_sample_witness :
  fst (processTouch 5 (mkTouchPoint 479 319 5 0 50 true)
         (begin_with (defaultConfig SCREEN_CAPACITIVE)
            (WaterRejectionTouch SCREEN_CAPACITIVE 480 320))) = true.
Proof.
  apply (proj1 (fresh_engine_accepts_first_sample 5
                  (mkTouchPoint 479 319 5 0 50 true)
                  (defaultConfig SCREEN_CAPACITIVE) 480 320
                  eq_refl
                  ltac:(vm_compute; split; congruence)
                  ltac:(vm_compute; split; congruence)
                  ltac:(vm_compute; congruence))).
Defined.

Section FreshHistory.
Variable P : TouchPoint -> bool.
Hypothesis P_zero : P zeroTouch = false.

Lemma b2z_match_le_1 (h : TouchPoint) : Z.b2z (P h) <= 1.
Proof. destruct (P h); simpl; lia. Qed.

(** At most five pushes into an empty ring leave at most five matches. *)
Lemma few_pushes_counted (ts : list TouchPoint) :
  (length ts <= 5)%nat ->
  sumMatches P
    (fst (fold_left ringPush ts (replicate (Z.to_nat HISTORY_SIZE) zeroTouch, 0)))
  <= 5.
Proof.
  intros Hlen.
  do 6 (destruct ts as [|? ts];
        [match goal with
         | |- sumMatches P (fst ?e) <= 5 =>
             let l := eval vm_compute in (fst e) in change (fst e) with l
         end;
         cbn [sumMatches fold_right];
         change (mkTouchPoint 0 0 0 0 0 false) with zeroTouch;
         rewrite ?P_zero; cbn [Z.b2z];
         repeat match goal with
                | |- context [Z.b2z (P ?a)] =>
                    let v := fresh "v" in
                    pose proof (b2z_match_le_1 a);
                    set (v := Z.b2z (P a)) in *; clearbody v
                end; lia|]).
  simpl in Hlen. lia.
Qed.

End FreshHistory.

(** X6.  After [begin], the static-touch test cannot reject any of the
    first six accepted samples: while at most five samples have been
    accepted since the start, [isStaticTouch] is false for every
    incoming sample. *)
Theorem no_static_rejection_before_six
  (s : State) (ts : list TouchPoint) (s' : State) (touch : TouchPoint) :
  touchHistory s = replicate (Z.to_nat HISTORY_SIZE) zeroTouch ->
  historyIndex s = 0 ->
  acceptedRun s ts s' ->
  (length ts <= 5)%nat ->
  isStaticTouch touch s' = false.
Proof.
  intros Hh Hi Hrun Hlen.
  pose proof (acceptedRun_ring _ _ _ Hrun) as Hring.
  unfold isStaticTouch. apply Z.ltb_ge.
  rewrite staticCount_sumMatches.
  change (touchHistory s') with (fst (touchHistory s', historyIndex s')).
  rewrite Hring, Hh, Hi.
  apply few_pushes_counted; [apply staticMatch_zeroTouch|exact Hlen].
Qed.

Lemma no_static_rejection_before_six_witness :
  exists s5 : State,
    acceptedRun staticEngine (map snd (tapsAt 100 100 1000 100 5)) s5
    /\ isStaticTouch (mkTouchPoint 100 100 1500 128 10 true) s5 = false.
Proof.
  eexists. split.
  { apply replayAccepted_acceptedRun. vm_compute. reflexivity. }
  apply (no_static_rejection_before_six staticEngine
           (map snd (tapsAt 100 100 1000 100 5))).
  - reflexivity.
  - reflexivity.
  - apply replayAccepted_acceptedRun. vm_compute. reflexivity.
  - vm_compute. repeat constructor.
Defined.

(** ** The gesture gate, beyond its three forward transitions *)

(** The gate approves a sample only when it is, or has just become,
    Active; a sample met in the Idle state is never approved, whatever its
    position. *)
Lemma validateGesture_approves_only_active (touch : TouchPoint) (s : State) :
  (fst (validateGesture touch s) = true ->
   gestureState (snd (validateGesture touch s)) = GESTURE_ACTIVE)
  /\ (gestureState s = GESTURE_IDLE -> fst (validateGesture touch s) = false).
Proof.
  unfold validateGesture.
  destruct (gestureState s) eqn:Hst; repeat case_match; simpl; split;
    intros; try discriminate; first [reflexivity | assumption].
Qed.


(** X7.  Expiry.  A sample that arrives after the deadline while the gate
    is Waiting or Active is not approved and sends the gate back to Idle;
    nothing else changes, so a sample at the edge that arrives late does
    not start a new gesture by itself. *)
Theorem validateGesture_expiry (touch : TouchPoint) (s : State) :
  gestureState s <> GESTURE_IDLE ->
  gestureStateTimeout s < timestamp touch ->
  validateGesture touch s = (false, set_gestureState GESTURE_IDLE s).
Proof.
  intros Hst Hlate. unfold validateGesture.
  apply Z.ltb_lt in Hlate.
  destruct (gestureState s); [now contradict Hst| |]; now rewrite Hlate.
Qed.

Lemma validateGesture_expiry_witness :
  validateGesture (mkTouchPoint 0 100 1501 128 10 true)
    (snd (processTouch_xy 1000 0 100 gestureEngine))
  = (false, set_gestureState GESTURE_IDLE
              (snd (processTouch_xy 1000 0 100 gestureEngine))).
Proof.
  apply validateGesture_expiry; vm_compute; congruence.
Defined.

Lemma acceptSample_sameGesture (touch : TouchPoint) (s : State) :
  sameGesture s (acceptSample touch s).
Proof.
  destruct (updateZones_sameGesture touch (updateHistory touch s)) as (?&?&?).
  unfold acceptSample. repeat split; simpl; assumption.
Qed.

(** X8.  With the gesture requirement on, a capacitive engine accepts a
    sample only while the gate is open: whenever [processTouch] returns
    accept, the gesture state after the call is Active.  In particular a
    sample met in the Idle state is rejected, and neither counter
    moves. *)
Theorem accepted_only_with_open_gate (now : Z) (touch : TouchPoint) (s : State) :
  screenType s = SCREEN_CAPACITIVE ->
  requireGesture (config s) = true ->
  (fst (processTouch now touch s) = true ->
   gestureState (snd (processTouch now touch s)) = GESTURE_ACTIVE)
  /\ (gestureState s = GESTURE_IDLE ->
      fst (processTouch now touch s) = false
      /\ validTouches (snd (processTouch now touch s)) = validTouches s
      /\ waterDropletsRejected (snd (processTouch now touch s))
         = waterDropletsRejected s).
Proof.
  intros Hty Hreq.
  destruct (outOfBounds touch s) eqn:Hb.
  { unfold processTouch. rewrite Hb. simpl. split; [discriminate|auto]. }
  assert (resistiveGate touch s = None) as Hg
    by (unfold resistiveGate; now rewrite Hty).
  destruct (processTouch_stages now touch s Hb Hg)
    as (approved & sg & Hgate & Hf & Hrej & Hacc).
  rewrite Hreq in Hgate.
  destruct (validateGesture_approves_only_active touch s) as [Hact Hidle].
  rewrite Hgate in Hact, Hidle. simpl in Hact, Hidle.
  destruct approved.
  - destruct (Hacc eq_refl) as (water & sw & _ & Hfw & Hgw & Hrun).
    rewrite Hrun. split.
    + destruct (water || isStaticTouch touch sw); [discriminate|].
      intros _. cbn [snd].
      destruct (acceptSample_sameGesture touch sw) as (-> & _).
      destruct Hgw as (-> & _). auto.
    + intros Hi. specialize (Hidle Hi). discriminate.
  - rewrite (Hrej eq_refl). simpl. split; [discriminate|].
    intros _. destruct Hf as (?&?&?&?&?&?&?&?&?&?&?&?). auto.
Qed.

Lemma accepted_only_with_open_gate_witness :
  fst (processTouch 1000 (mkTouchPoint 200 100 1000 128 10 true) gestureEngine)
  = false.
Proof.
  apply (proj2 (accepted_only_with_open_gate 1000
                  (mkTouchPoint 200 100 1000 128 10 true) gestureEngine
                  eq_refl eq_refl)).
  reflexivity.
Defined.

(** X9.  Without the gesture requirement [processTouch] never reads or
    writes the gate: the gesture state, its deadline and its start point
    are the same after the call. *)
Theorem processTouch_without_gesture (now : Z) (touch : TouchPoint) (s : State) :
  requireGesture (config s) = false ->
  sameGesture s (snd (processTouch now touch s)).
Proof.
  intros Hreq.
  destruct (outOfBounds touch s) eqn:Hb.
  { unfold processTouch. rewrite Hb. repeat split. }
  destruct (resistiveGate touch s) as [r|] eqn:Hg.
  { unfold processTouch. rewrite Hb, Hg. repeat split. }
  destruct (processTouch_stages now touch s Hb Hg)
    as (approved & sg & Hgate & Hf & Hrej & Hacc).
  rewrite Hreq in Hgate. injection Hgate as <- <-.
  destruct (Hacc eq_refl) as (water & sw & _ & _ & (H1 & H2 & H3) & Hrun).
  rewrite Hrun.
  destruct (water || isStaticTouch touch sw); cbn [snd].
  - repeat split; assumption.
  - destruct (acceptSample_sameGesture touch sw) as (E1 & E2 & E3).
    unfold sameGesture. rewrite E1, E2, E3. repeat split; assumption.
Qed.

Lemma processTouch_without_gesture_witness :
  sameGesture capacitiveEngine
    (snd (processTouch_xy 1000 10 100 capacitiveEngine)).
Proof.
  apply (processTouch_without_gesture 1000
           (mkTouchPoint 10 100 1000 128 10 true) capacitiveEngine).
  reflexivity.
Defined.

(** ** The zone grid: decay sweep and zone-activity test *)

Lemma lookup_map_list {A B : Type} (f : A -> B) (l : list A) (i : nat) :
  map f l !! i = option_map f (l !! i).
Proof.
  revert i. induction l as [|a l IH]; intros [|i]; simpl; auto.
Qed.

Lemma sweepZone_zeroZone (timeout now : Z) :
  sweepZone timeout now zeroZone = zeroZone.
Proof. reflexivity. Qed.


Lemma clearOldZones_sweepZone (now : Z) (s : State) :
  clearOldZones now s
  = set_zones (map (map (sweepZone (touchTimeout (config s)) now)) (zones s)) s.
Proof. reflexivity. Qed.

Lemma getZone_clearOldZones (now : Z) (s : State) (zx zy : Z) :
  getZone (zones (clearOldZones now s)) zx zy
  = sweepZone (touchTimeout (config s)) now (getZone (zones s) zx zy).
Proof.
  rewrite clearOldZones_sweepZone. cbn [zones set_zones]. unfold getZone.
  rewrite lookup_map_list.
  destruct (zones s !! Z.to_nat zx) as [col|]; simpl; [|reflexivity].
  rewrite lookup_map_list.
  destruct (col !! Z.to_nat zy); reflexivity.
Qed.



(** X11.  The periodic [update] changes nothing but the zone grid and the
    gesture state; it sends a Waiting or Active gate whose deadline lies
    before [now] back to Idle, and otherwise leaves the gesture state as
    it was: it never opens the gate. *)
Theorem update_gate (now : Z) (s : State) :
  stageFrame s (update now s)
  /\ gestureStateTimeout (update now s) = gestureStateTimeout s
  /\ gestureStartPoint (update now s) = gestureStartPoint s
  /\ (gestureState (update now s) = gestureState s
      \/ gestureState (update now s) = GESTURE_IDLE)
  /\ (gestureStateTimeout s < now ->
      gestureState (update now s) = GESTURE_IDLE).
Proof.
  unfold update.
  change (gestureState (clearOldZones now s)) with (gestureState s).
  change (gestureStateTimeout (clearOldZones now s)) with (gestureStateTimeout s).
  destruct (gestureState s) eqn:Hst;
    [|destruct (gestureStateTimeout s <? now) eqn:E
     |destruct (gestureStateTimeout s <? now) eqn:E];
    (split; [repeat split|]); (split; [reflexivity|]); (split; [reflexivity|]);
    simpl; rewrite ?Hst; (split; [auto|]);
    intros Hlt; apply Z.ltb_lt in Hlt; congruence.
Qed.

Lemma update_gate_witness :
  gestureState (update 1501 (snd (processTouch_xy 1000 0 100 gestureEngine)))
  = GESTURE_IDLE.
Proof.
  apply (proj2 (proj2 (proj2 (proj2 (update_gate 1501
           (snd (processTouch_xy 1000 0 100 gestureEngine))))))).
  vm_compute. reflexivity.
Defined.

(** The zone-activity test writes to the grid even when it rejects: if
    the sample's cell is active and was activated less than 100 ms before
    [now], its counter is incremented (modulo 256) by the test itself;
    otherwise the cell is left alone.  No other cell and nothing outside
    the grid is changed. *)
Lemma checkZoneActivity_cells (now zoneX zoneY : Z) (s : State) :
  wfZones (zones s) ->
  0 <= zoneX < ZONE_GRID_SIZE -> 0 <= zoneY < ZONE_GRID_SIZE ->
  getZone (zones (snd (checkZoneActivity now zoneX zoneY s))) zoneX zoneY
  = (if active (getZone (zones s) zoneX zoneY)
        && (u32 (now - activationTime (getZone (zones s) zoneX zoneY)) <? 100)
     then mkTouchZone true (activationTime (getZone (zones s) zoneX zoneY))
            (u8 (touchCount (getZone (zones s) zoneX zoneY) + 1))
            (lastTouchTime (getZone (zones s) zoneX zoneY))
     else getZone (zones s) zoneX zoneY)
  /\ (forall ox oy : Z, 0 <= ox -> 0 <= oy -> (ox, oy) <> (zoneX, zoneY) ->
        getZone (zones (snd (checkZoneActivity now zoneX zoneY s))) ox oy
        = getZone (zones s) ox oy)
  /\ stageFrame s (snd (checkZoneActivity now zoneX zoneY s))
  /\ sameGesture s (snd (checkZoneActivity now zoneX zoneY s)).
Proof.
  intros Hwf Hx Hy. unfold checkZoneActivity.
  destruct (active (getZone (zones s) zoneX zoneY)) eqn:Ha; cbn [andb];
    [|repeat split].
  destruct (u32 (now - activationTime (getZone (zones s) zoneX zoneY)) <? 100);
    [|repeat split].
  match goal with
  | |- context [if ?c then (true, ?a) else (?d, ?a)] =>
      replace (snd (if c then (true, a) else (d, a))) with a
        by (destruct c; reflexivity)
  end.
  cbn [zones set_zones].
  split; [now apply getZone_setZone_eq|].
  split; [intros ox oy Hox Hoy Hne; apply getZone_setZone_ne; try lia; exact Hne|].
  repeat split.
Qed.


(** ** The history ring *)

(** Twenty pushes fill the ring once: the cursor is back where it was and
    the slots hold the pushed samples, rotated by the cursor. *)
Lemma twenty_pushes (h : list TouchPoint) (idx : Z) (ts : list TouchPoint) :
  length h = 20%nat -> 0 <= idx < 20 -> length ts = 20%nat ->
  fold_left ringPush ts (h, idx) = (rotate (Z.to_nat (20 - idx)) ts, idx).
Proof.
  intros Hlen Hidx Hts.
  do 20 (destruct h as [|? h]; [discriminate|]).
  destruct h; [|discriminate]. clear Hlen.
  do 20 (destruct ts as [|? ts]; [discriminate|]).
  destruct ts; [|discriminate]. clear Hts.
  assert (idx = 0 \/ idx = 1 \/ idx = 2 \/ idx = 3 \/ idx = 4 \/ idx = 5 \/
          idx = 6 \/ idx = 7 \/ idx = 8 \/ idx = 9 \/ idx = 10 \/ idx = 11 \/
          idx = 12 \/ idx = 13 \/ idx = 14 \/ idx = 15 \/ idx = 16 \/
          idx = 17 \/ idx = 18 \/ idx = 19) as Hcases by lia.
  repeat (destruct Hcases as [->|Hcases]); [..|subst idx];
    vm_compute; reflexivity.
Qed.

(** X12.  Ring eviction.  After [HISTORY_SIZE] = 20 accepted samples the
    history holds exactly those twenty (in cursor order) and the cursor is
    back at its starting slot: every sample accepted before them is no
    longer in the history. *)
Theorem history_holds_last_twenty
  (s : State) (ts : list TouchPoint) (s' : State) :
  wfHistory s ->
  acceptedRun s ts s' ->
  length ts = Z.to_nat HISTORY_SIZE ->
  touchHistory s' = rotate (Z.to_nat (HISTORY_SIZE - historyIndex s)) ts
  /\ historyIndex s' = historyIndex s
  /\ (forall t : TouchPoint, t ∈ touchHistory s' -> t ∈ ts).
Proof.
  intros [Hlen Hidx] Hrun Hts.
  pose proof (acceptedRun_ring _ _ _ Hrun) as Hring.
  rewrite (twenty_pushes _ _ _ Hlen Hidx Hts) in Hring.
  injection Hring as Hh Hi. split; [exact Hh|]. split; [exact Hi|].
  intros t. rewrite Hh. apply elem_of_rotate.
Qed.

Lemma history_holds_last_twenty_witness :
  exists s20 : State,
    acceptedRun capacitiveEngine (map snd (tapsAt 100 100 1000 100 20)) s20
    /\ touchHistory s20 = map snd (tapsAt 100 100 1000 100 20).
Proof.
  eexists. split.
  { apply replayAccepted_acceptedRun. vm_compute. reflexivity. }
  apply (proj1 (history_holds_last_twenty capacitiveEngine
                  (map snd (tapsAt 100 100 1000 100 20)) _
                  (wfHistory_constructed _ _ _ _)
                  ltac:(apply replayAccepted_acceptedRun; vm_compute; reflexivity)
                  eq_refl)).
Defined.

(** ** Multi-touch batches *)

Lemma copyTouches_currentTouchCount (touches : list TouchPoint) (count : Z) (s : State) :
  currentTouchCount (copyTouches touches count s) = currentTouchCount s
  /\ config (copyTouches touches count s) = config s.
Proof.
  unfold copyTouches. generalize (seqZ 0 (Z.min count 5)). intros l.
  revert s. induction l as [|i l IH]; intros s; simpl; [auto|].
  destruct (IH (set_multiTouchPoints
                  (<[Z.to_nat i := nth (Z.to_nat i) touches zeroTouch]>
                     (multiTouchPoints s)) s)) as [-> ->]. auto.
Qed.

Lemma checkMultiTouchPattern_needs_three (s : State) :
  currentTouchCount s <= 2 -> checkMultiTouchPattern s = false.
Proof.
  intros Hn. unfold checkMultiTouchPattern.
  destruct (currentTouchCount s <? 2); [reflexivity|].
  assert ((2 <? currentTouchCount s) = false) as -> by (apply Z.ltb_ge; lia).
  assert ((3 <=? currentTouchCount s) = false) as -> by (apply Z.leb_gt; lia).
  now rewrite andb_false_r.
Qed.

(** X13.  Both pattern tests of a batch need at least three touches, and
    [processMultiTouch] runs them only on batches of at most
    [maxSimultaneousTouches] touches.  Every built-in setting of that
    limit (the defaults, both calibrations and [optimizeForScreenType])
    is 1 or 2, so under them no batch is ever rejected by the cluster or
    the colinearity test. *)
Theorem pattern_tests_unreachable_under_presets
  (touches : list TouchPoint) (count : Z) (wet : bool) (s : State) :
  (maxSimultaneousTouches (config s) <= 2 ->
   count <= maxSimultaneousTouches (config s) ->
   checkMultiTouchPattern (batchLoaded touches count s) = false)
  /\ maxSimultaneousTouches (config (calibrateForEnvironment wet s)) <= 2
  /\ maxSimultaneousTouches (config (optimizeForScreenType s)) <= 2
  /\ maxSimultaneousTouches (defaultConfig (screenType s)) <= 2.
Proof.
  split.
  - intros Hmax Hcount. apply checkMultiTouchPattern_needs_three.
    unfold batchLoaded.
    destruct (copyTouches_currentTouchCount touches count
                (set_currentTouchCount count s)) as [-> _].
    simpl. lia.
  - unfold calibrateForEnvironment, optimizeForScreenType.
    destruct (screenType s), wet; simpl; repeat split; lia.
Qed.

Lemma pattern_tests_unreachable_under_presets_witness :
  checkMultiTouchPattern
    (batchLoaded [mkTouchPoint 10 10 1000 128 10 true;
                  mkTouchPoint 11 11 1000 128 10 true] 2 capacitiveEngine)
  = false.
Proof.
  apply (proj1 (pattern_tests_unreachable_under_presets
                  [mkTouchPoint 10 10 1000 128 10 true;
                   mkTouchPoint 11 11 1000 128 10 true] 2 false capacitiveEngine));
    vm_compute; congruence.
Defined.

(** X14.  Edge cases of [processMultiTouch].  A batch of more touches
    than [maxSimultaneousTouches] is rejected as a whole: no touch is
    processed, the rejected counter advances once, and only
    [currentTouchCount] is written besides.  An empty batch returns
    reject without counting anything.  A batch of one touch is decided by
    [processTouch] alone. *)
Theorem processMultiTouch_edge_cases
  (now : Z) (touches : list TouchPoint) (count : Z) (s : State) :
  (maxSimultaneousTouches (config s) < count ->
   processMultiTouch now touches count s
   = (false, set_waterDropletsRejected (u32 (waterDropletsRejected s + 1))
               (set_currentTouchCount count s)))
  /\ (0 <= maxSimultaneousTouches (config s) ->
      processMultiTouch now touches 0 s = (false, set_currentTouchCount 0 s))
  /\ (1 <= maxSimultaneousTouches (config s) ->
      processMultiTouch now touches 1 s
      = processTouch now (nth 0 touches zeroTouch) (batchLoaded touches 1 s)).
Proof.
  unfold processMultiTouch. cbn [config set_currentTouchCount].
  split; [|split].
  - intros H. apply Z.ltb_lt in H. now rewrite H.
  - intros H. assert ((maxSimultaneousTouches (config s) <? 0) = false) as ->
      by (apply Z.ltb_ge; lia).
    reflexivity.
  - intros H. assert ((maxSimultaneousTouches (config s) <? 1) = false) as ->
      by (apply Z.ltb_ge; lia).
    fold (batchLoaded touches 1 s).
    rewrite checkMultiTouchPattern_needs_three.
    + change (seqZ 0 1) with [0]. cbn [fold_left snd fst].
      change (Z.to_nat 0) with 0%nat.
      destruct (processTouch now (nth 0 touches zeroTouch)
                  (batchLoaded touches 1 s)) as [[|] s']; reflexivity.
    + unfold batchLoaded.
      destruct (copyTouches_currentTouchCount touches 1
                  (set_currentTouchCount 1 s)) as [-> _].
      simpl. lia.
Qed.

Lemma processMultiTouch_edge_cases_witness :
  processMultiTouch 1000 diagonalBatch 3 capacitiveEngine
  = (false, set_waterDropletsRejected 1
              (set_currentTouchCount 3 capacitiveEngine)).
Proof.
  apply (proj1 (processMultiTouch_edge_cases 1000 diagonalBatch 3
                  capacitiveEngine)).
  vm_compute. reflexivity.
Defined.

(** ** C10: the in-window counter of a cell, across the engine *)

Lemma u8_nonneg (z : Z) : 0 <= u8 z < 256.
Proof. unfold u8. apply Z.mod_pos_bound. lia. Qed.

Lemma counterBumped_refl (n c : Z) : counterBumped n c c.
Proof. now left. Qed.

Lemma counterBumped_one (n c : Z) : 1 <= n -> counterBumped n c (u8 (c + 1)).
Proof. intros Hn. right. exists 1. split; [lia|reflexivity]. Qed.

Lemma counterBumped_trans (n m c c1 c2 : Z) :
  0 <= n -> 0 <= m ->
  counterBumped n c c1 -> counterBumped m c1 c2 -> counterBumped (n + m) c c2.
Proof.
  intros Hn Hm [->|(k1 & Hk1 & ->)] [->|(k2 & Hk2 & ->)].
  - now left.
  - right. exists k2. split; [lia|reflexivity].
  - right. exists k1. split; [lia|reflexivity].
  - right. exists (k1 + k2). split; [lia|].
    unfold u8. rewrite Z.add_mod_idemp_l by lia. f_equal. lia.
Qed.

(** A counter that was bumped is smaller than before only if an increment
    wrapped past 255. *)
Lemma counterBumped_wrap (n c c' : Z) :
  counterBumped n c c' -> c' < c -> 255 < c + n.
Proof.
  intros [->|(k & Hk & ->)] Hlt; [lia|].
  pose proof (u8_nonneg (c + k)) as Hr.
  destruct (Z_lt_le_dec (c + k) 256) as [Hsmall|Hbig]; [|lia].
  unfold u8 in *. rewrite Z.mod_small in Hlt by lia. lia.
Qed.

Lemma zoneOf_nonneg (pos dim : Z) : 0 <= zoneOf pos dim.
Proof. unfold zoneOf. apply u8_nonneg. Qed.

Lemma isWaterPattern_counter (now : Z) (touch : TouchPoint) (s : State) (ox oy : Z) :
  wfZones (zones s) -> 0 <= ox -> 0 <= oy ->
  counterBumped 1 (touchCount (getZone (zones s) ox oy))
    (touchCount (getZone (zones (snd (isWaterPattern now touch s))) ox oy)).
Proof.
  intros Hwf Hox Hoy. unfold isWaterPattern.
  destruct (maxTouchArea (config s) <? area touch); [apply counterBumped_refl|].
  destruct ((ZONE_GRID_SIZE <=? zoneOf (x touch) (screenWidth s))
            || (ZONE_GRID_SIZE <=? zoneOf (y touch) (screenHeight s))) eqn:Hz;
    [apply counterBumped_refl|].
  apply orb_false_iff in Hz as [Hzx Hzy]. apply Z.leb_gt in Hzx, Hzy.
  pose proof (zoneOf_nonneg (x touch) (screenWidth s)).
  pose proof (zoneOf_nonneg (y touch) (screenHeight s)).
  destruct (checkZoneActivity_cells now _ _ s Hwf
              (conj H Hzx) (conj H0 Hzy)) as (Hcell & Hrest & _).
  destruct (decide ((ox, oy) = (zoneOf (x touch) (screenWidth s),
                                zoneOf (y touch) (screenHeight s)))) as [[= -> ->]|Hne].
  - rewrite Hcell.
    destruct (active _ && _); [apply counterBumped_one; lia|apply counterBumped_refl].
  - rewrite (Hrest ox oy Hox Hoy Hne). apply counterBumped_refl.
Qed.

Lemma updateZones_counter (touch : TouchPoint) (s : State) (ox oy : Z) :
  wfZones (zones s) -> 0 <= ox -> 0 <= oy ->
  counterBumped 1 (touchCount (getZone (zones s) ox oy))
    (touchCount (getZone (zones (updateZones touch s)) ox oy)).
Proof.
  intros Hwf Hox Hoy. unfold updateZones.
  destruct ((zoneOf (x touch) (screenWidth s) <? ZONE_GRID_SIZE)
            && (zoneOf (y touch) (screenHeight s) <? ZONE_GRID_SIZE)) eqn:Hz;
    [|apply counterBumped_refl].
  apply andb_true_iff in Hz as [Hzx Hzy]. apply Z.ltb_lt in Hzx, Hzy.
  pose proof (zoneOf_nonneg (x touch) (screenWidth s)).
  pose proof (zoneOf_nonneg (y touch) (screenHeight s)).
  cbn [activationTime active touchCount lastTouchTime zones set_zones].
  assert (u32 (timestamp touch - timestamp touch) = 0) as ->
    by (rewrite Z.sub_diag; reflexivity).
  change (0 <? 100) with true. cbv iota.
  destruct (decide ((ox, oy) = (zoneOf (x touch) (screenWidth s),
                                zoneOf (y touch) (screenHeight s)))) as [[= -> ->]|Hne].
  - rewrite getZone_setZone_eq by auto. apply counterBumped_one. lia.
  - rewrite getZone_setZone_ne by (try lia; exact Hne). apply counterBumped_refl.
Qed.

Lemma processTouch_counter (now : Z) (touch : TouchPoint) (s : State) (ox oy : Z) :
  wfZones (zones s) -> 0 <= ox -> 0 <= oy ->
  counterBumped 2 (touchCount (getZone (zones s) ox oy))
    (touchCount (getZone (zones (snd (processTouch now touch s))) ox oy)).
Proof.
  intros Hwf Hox Hoy. unfold processTouch.
  destruct (outOfBounds touch s); [apply counterBumped_refl|].
  destruct (resistiveGate touch s); [apply counterBumped_refl|].
  assert (zones (snd (if requireGesture (config s) then validateGesture touch s
                      else (true, s))) = zones s) as Hg.
  { destruct (requireGesture (config s)); [apply validateGesture_zones|reflexivity]. }
  destruct (if requireGesture (config s) then validateGesture touch s
            else (true, s)) as [approved s1].
  simpl in Hg. destruct approved; simpl; [|rewrite Hg; apply counterBumped_refl].
  rewrite <- Hg in Hwf |- *.
  pose proof (isWaterPattern_counter now touch s1 ox oy Hwf Hox Hoy) as Hw.
  pose proof (isWaterPattern_wfZones now touch s1 Hwf) as Hwf2.
  destruct (isWaterPattern now touch s1) as [water s2]. simpl in Hw, Hwf2.
  assert (counterBumped 2 (touchCount (getZone (zones s1) ox oy))
            (touchCount (getZone (zones s2) ox oy))) as Hw2.
  { destruct Hw as [->|(k & Hk & ->)]; [apply counterBumped_refl|].
    right. exists k. split; [lia|reflexivity]. }
  destruct water; simpl; [exact Hw2|].
  destruct (isStaticTouch touch s2); simpl; [exact Hw2|].
  change 2 with (1 + 1).
  apply (counterBumped_trans 1 1 _ _ _ ltac:(lia) ltac:(lia) Hw).
  apply (updateZones_counter touch (updateHistory touch s2) ox oy);
    [exact Hwf2|exact Hox|exact Hoy].
Qed.

Lemma copyTouches_zones (touches : list TouchPoint) (count : Z) (s : State) :
  zones (copyTouches touches count s) = zones s.
Proof.
  unfold copyTouches. generalize (seqZ 0 (Z.min count 5)). intros l.
  revert s. induction l as [|i l IH]; intros s; simpl; [reflexivity|].
  now rewrite IH.
Qed.

Lemma processTouch_fold_counter (now : Z) (touches : list TouchPoint)
  (l : list Z) (acc : bool * State) (ox oy : Z) :
  wfZones (zones (snd acc)) -> 0 <= ox -> 0 <= oy ->
  counterBumped (2 * Z.of_nat (length l))
    (touchCount (getZone (zones (snd acc)) ox oy))
    (touchCount
       (getZone
          (zones
             (snd
                (fold_left
                   (fun (acc : bool * State) i =>
                      let '(r, s') :=
                        processTouch now (nth (Z.to_nat i) touches zeroTouch)
                          (snd acc) in
                      (if r then true else fst acc, s'))
                   l acc))) ox oy)).
Proof.
  intros Hwf Hox Hoy. revert acc Hwf.
  induction l as [|i l IH]; intros acc Hwf; [apply counterBumped_refl|].
  cbn [fold_left length].
  pose proof (processTouch_counter now (nth (Z.to_nat i) touches zeroTouch)
                (snd acc) ox oy Hwf Hox Hoy) as Hstep.
  pose proof (processTouch_wfZones now (nth (Z.to_nat i) touches zeroTouch)
                (snd acc) Hwf) as Hwf'.
  destruct (processTouch now (nth (Z.to_nat i) touches zeroTouch) (snd acc))
    as [r s'].
  simpl in Hstep, Hwf'.
  replace (2 * Z.of_nat (S (length l))) with (2 + 2 * Z.of_nat (length l)) by lia.
  apply (counterBumped_trans 2 (2 * Z.of_nat (length l)) _ _ _
           ltac:(lia) ltac:(lia) Hstep).
  apply (IH (if r then true else fst acc, s')). exact Hwf'.
Qed.

Lemma processMultiTouch_counter (now : Z) (touches : list TouchPoint) (count : Z)
  (s : State) (ox oy : Z) :
  wfZones (zones s) -> 0 <= ox -> 0 <= oy ->
  counterBumped (2 * Z.max 0 count) (touchCount (getZone (zones s) ox oy))
    (touchCount
       (getZone (zones (snd (processMultiTouch now touches count s))) ox oy)).
Proof.
  intros Hwf Hox Hoy. unfold processMultiTouch.
  destruct (maxSimultaneousTouches (config (set_currentTouchCount count s))
            <? count); [apply counterBumped_refl|].
  destruct (checkMultiTouchPattern
              (copyTouches touches count (set_currentTouchCount count s))).
  { cbn [snd zones set_waterDropletsRejected].
    rewrite copyTouches_zones. apply counterBumped_refl. }
  pose proof (processTouch_fold_counter now touches (seqZ 0 count)
                (false, copyTouches touches count (set_currentTouchCount count s))
                ox oy) as H.
  cbn [snd] in H. rewrite copyTouches_zones in H.
  specialize (H Hwf Hox Hoy).
  rewrite length_seqZ in H.
  replace (Z.of_nat (Z.to_nat count)) with (Z.max 0 count) in H by lia.
  exact H.
Qed.

(** C10, amended.  In the zone update of an accepted sample the
    activation time is assigned the sample's timestamp before the
    comparison, so the cell's counter is always incremented, modulo 256,
    and never reset to 1.  Across the engine the counter of a cell is
    changed only by increments of that [uint8_t] (at most two in one
    [processTouch]: one by the zone-activity test, one by the zone
    update), by the decay sweep of [update], which either leaves it or
    sets it to 0 for an active cell older than [touchTimeout], and by
    [begin], which sets it to 0; no other operation changes it.  So it
    decreases only through the sweep, through [begin], or when an
    increment wraps past 255. *)
Theorem zone_counter_grows_or_wraps
  (op : Operation) (touch : TouchPoint) (s : State) (ox oy : Z) :
  wfZones (zones s) -> 0 <= ox -> 0 <= oy ->
  (0 <= x touch < screenWidth s -> 0 <= y touch < screenHeight s ->
   getZone (zones (updateZones touch s))
     (zoneOf (x touch) (screenWidth s)) (zoneOf (y touch) (screenHeight s))
   = mkTouchZone true (timestamp touch)
       (u8 (touchCount (getZone (zones s) (zoneOf (x touch) (screenWidth s))
                          (zoneOf (y touch) (screenHeight s))) + 1))
       (timestamp touch))
  /\ match op with
     | OpProcessTouch _ _ =>
         counterBumped 2 (touchCount (getZone (zones s) ox oy))
           (touchCount (getZone (zones (runOperation op s)) ox oy))
         /\ (touchCount (getZone (zones (runOperation op s)) ox oy)
               < touchCount (getZone (zones s) ox oy) ->
             255 < touchCount (getZone (zones s) ox oy) + 2)
     | OpProcessMultiTouch _ _ count =>
         counterBumped (2 * Z.max 0 count)
           (touchCount (getZone (zones s) ox oy))
           (touchCount (getZone (zones (runOperation op s)) ox oy))
         /\ (touchCount (getZone (zones (runOperation op s)) ox oy)
               < touchCount (getZone (zones s) ox oy) ->
             255 < touchCount (getZone (zones s) ox oy) + 2 * Z.max 0 count)
     | OpUpdate now =>
         touchCount (getZone (zones (runOperation op s)) ox oy)
           = touchCount (getZone (zones s) ox oy)
         \/ (touchCount (getZone (zones (runOperation op s)) ox oy) = 0
             /\ active (getZone (zones s) ox oy) = true
             /\ touchTimeout (config s)
                  < u32 (now - lastTouchTime (getZone (zones s) ox oy)))
     | OpBegin _ =>
         touchCount (getZone (zones (runOperation op s)) ox oy) = 0
     | _ =>
         touchCount (getZone (zones (runOperation op s)) ox oy)
           = touchCount (getZone (zones s) ox oy)
     end.
Proof.
  intros Hwf Hox Hoy. split.
  { intros Hx Hy. exact (proj1 (updateZones_cell touch s Hwf Hx Hy)). }
  destruct op as [now t|now touches count|now|cfg|cfg|a|req|w h| | | | |wet| ];
    cbn [runOperation].
  - pose proof (processTouch_counter now t s ox oy Hwf Hox Hoy) as H.
    split; [exact H|apply counterBumped_wrap; exact H].
  - pose proof (processMultiTouch_counter now touches count s ox oy Hwf Hox Hoy)
      as H.
    split; [exact H|apply counterBumped_wrap; exact H].
  - assert (zones (update now s) = zones (clearOldZones now s)) as ->.
    { unfold update. repeat case_match; reflexivity. }
    rewrite getZone_clearOldZones. unfold sweepZone.
    destruct (active (getZone (zones s) ox oy)) eqn:Ha; cbn [andb]; [|now left].
    destruct (touchTimeout (config s)
              <? u32 (now - lastTouchTime (getZone (zones s) ox oy))) eqn:E;
      [|now left].
    right. apply Z.ltb_lt in E. auto.
  - cbn [zones begin_with set_validTouches set_waterDropletsRejected
           set_gestureState set_historyIndex set_zones].
    now rewrite getZone_fresh.
  - reflexivity.
  - reflexivity.
  - unfold setRequireGesture. destruct req; reflexivity.
  - reflexivity.
  - reflexivity.
  - reflexivity.
  - reflexivity.
  - reflexivity.
  - unfold calibrateForEnvironment. destruct (screenType s), wet; reflexivity.
  - unfold optimizeForScreenType. destruct (screenType s); reflexivity.
Qed.

Lemma zone_counter_grows_or_wraps_witness :
  getZone (zones (updateZones (mkTouchPoint 100 100 5000 128 10 true)
                    (snd (processTouch_xy 1000 100 100 capacitiveEngine))))
    (zoneOf 100 480) (zoneOf 100 320)
  = mkTouchZone true 5000 2 5000
  /\ counterBumped 2
       (touchCount (getZone (zones (snd (processTouch_xy 1000 100 100
                                           capacitiveEngine))) 4 6))
       (touchCount
          (getZone (zones
             (runOperation
                (OpProcessTouch 1050 (mkTouchPoint 100 100 1050 128 10 true))
                (snd (processTouch_xy 1000 100 100 capacitiveEngine)))) 4 6)).
Proof.
  pose proof (zone_counter_grows_or_wraps
                (OpProcessTouch 1050 (mkTouchPoint 100 100 1050 128 10 true))
                (mkTouchPoint 100 100 5000 128 10 true)
                (snd (processTouch_xy 1000 100 100 capacitiveEngine)) 4 6
                ltac:(vm_compute; split; [reflexivity|repeat constructor])
                ltac:(lia) ltac:(lia)) as [HA [HB _]].
  split; [|exact HB].
  apply HA; vm_compute; split; congruence.
Defined.

(** ** Calibration and presets, composed *)

(** X15.  Calibration is last-writer-wins: both environments assign the same
    fields, so calibrating twice is calibrating for the second
    environment, and a wet calibration is undone exactly on those fields
    by a normal one.  [optimizeForScreenType] after a wet calibration
    restores the normal area, static-time and touch-count limits but
    leaves the gesture requirement of wet mode switched on. *)
Theorem calibration_composes (a b : bool) (s : State) :
  calibrateForEnvironment b (calibrateForEnvironment a s)
    = calibrateForEnvironment b s
  /\ requireGesture
       (config (optimizeForScreenType (calibrateForEnvironment true s))) = true
  /\ maxTouchArea
       (config (optimizeForScreenType (calibrateForEnvironment true s)))
     = maxTouchArea (config (calibrateForEnvironment false s))
  /\ maxStaticTime
       (config (optimizeForScreenType (calibrateForEnvironment true s)))
     = maxStaticTime (config (calibrateForEnvironment false s))
  /\ maxSimultaneousTouches
       (config (optimizeForScreenType (calibrateForEnvironment true s)))
     = maxSimultaneousTouches (config (calibrateForEnvironment false s))
  /\ optimizeForScreenType (optimizeForScreenType s) = optimizeForScreenType s.
Proof.
  unfold calibrateForEnvironment, optimizeForScreenType.
  repeat split; destruct (screenType s) eqn:Hty, a, b; simpl;
    rewrite ?Hty; reflexivity.
Qed.

(** ** The resistive defaults *)

Lemma default_resistive_rejects_every_sample_witness :
  processTouch 1000 (mkTouchPoint 100 100 1000 128 10 true)
    (begin (WaterRejectionTouch SCREEN_RESISTIVE 480 320))
  = (false, begin (WaterRejectionTouch SCREEN_RESISTIVE 480 320)).
Proof.
  apply default_resistive_rejects_every_sample;
    [reflexivity|reflexivity|]. simpl. lia.
Defined.

(** ** Event derivation *)

Lemma getTouchEvent_pressed (current : TouchPoint) (s : State) (e : EventState) :
  wasPressed (snd (getTouchEvent current s e)) = valid current.
Proof.
  unfold getTouchEvent.
  destruct (valid current), (wasPressed e) eqn:Hp; simpl;
    repeat case_match; simpl; auto.
Qed.

(** What [getTouchEvent] reports.  Start is reported exactly for a valid
    sample while not pressed, End exactly for an invalid sample while
    pressed; Move only for a valid sample while pressed; the pressed flag
    after the call is the validity of the sample; and the reference point
    moves only on Start and Move, so a slow drift is measured from the
    last reported point. *)
Lemma getTouchEvent_reports (current : TouchPoint) (s : State) (e : EventState) :
  (fst (getTouchEvent current s e) = TOUCH_START
     <-> valid current = true /\ wasPressed e = false)
  /\ (fst (getTouchEvent current s e) = TOUCH_END
        <-> valid current = false /\ wasPressed e = true)
  /\ (fst (getTouchEvent current s e) = TOUCH_MOVE ->
      valid current = true /\ wasPressed e = true
      /\ ev_lastValidTouch (snd (getTouchEvent current s e)) = current)
  /\ fst (getTouchEvent current s e) <> TOUCH_INVALID
  /\ wasPressed (snd (getTouchEvent current s e)) = valid current
  /\ (fst (getTouchEvent current s e) = TOUCH_NONE
      \/ fst (getTouchEvent current s e) = TOUCH_END ->
      ev_lastValidTouch (snd (getTouchEvent current s e)) = ev_lastValidTouch e).
Proof.
  split; [|split; [|split; [|split; [|split]]]];
    try apply getTouchEvent_pressed;
    unfold getTouchEvent;
    destruct (valid current), (wasPressed e) eqn:Hp; simpl;
    repeat case_match; simpl;
    try (split; intros; try discriminate);
    intuition (try discriminate; auto).
Qed.

(** X17.  Over any stream of samples, Start and End events alternate: a Start is
    never followed by another Start without an End between them, and an
    End never by another End without a Start. *)
Theorem touchEvents_alternate (s : State) (e : EventState) (l : list TouchPoint) :
  alternates (wasPressed e) (touchEvents s e l) = true.
Proof.
  revert e. induction l as [|current l IH]; intros e; [reflexivity|].
  cbn [touchEvents].
  pose proof (getTouchEvent_pressed current s e) as Hp.
  destruct (getTouchEvent_reports current s e) as (HS & HE & HM & HI & _).
  destruct (getTouchEvent current s e) as [ev e'] eqn:Hrun.
  simpl in Hp, HS, HE, HM, HI. specialize (IH e'). rewrite Hp in IH.
  destruct ev; cbn [alternates].
  - (* None *)
    assert (valid current = wasPressed e) as <-; [|exact IH].
    revert Hrun. unfold getTouchEvent.
    destruct (valid current), (wasPressed e); simpl;
      repeat case_match; intros [= ]; reflexivity.
  - destruct (proj1 HS eq_refl) as [Hv Hw]. rewrite Hv in IH. rewrite Hw.
    exact IH.
  - destruct (HM eq_refl) as (Hv & Hw & _). rewrite Hv in IH. rewrite Hw.
    exact IH.
  - destruct (proj1 HE eq_refl) as [Hv Hw]. rewrite Hv in IH. rewrite Hw.
    exact IH.
  - now contradict HI.
Qed.

(** ** The event handler *)

(** X18.  [handleTouch] makes a callback only for a sample the filter accepted,
    never the End callback, and always hands a valid sample to
    [getTouchEvent]: once the pressed flag is set it stays set, so from
    then on [handleTouch] never makes the Start callback again. *)
Theorem handleTouch_start_once
  (now px py p a : Z) (h : HandlerState) (s : State) (e : EventState) :
  let '(call, h', s', e') := handleTouch now px py p a h s e in
  (call <> None ->
   fst (processTouch now (mkTouchPoint px py now p a true) s) = true)
  /\ (forall cx cy : Z, call <> Some (TOUCH_END, cx, cy))
  /\ (wasPressed e = true ->
      wasPressed e' = true
      /\ forall cx cy : Z, call <> Some (TOUCH_START, cx, cy))
  /\ (fst (processTouch now (mkTouchPoint px py now p a true) s) = true ->
      wasPressed e' = true)
  /\ s' = snd (processTouch now (mkTouchPoint px py now p a true) s).
Proof.
  unfold handleTouch.
  destruct (processTouch now (mkTouchPoint px py now p a true) s) as [ok s1].
  destruct ok; [|simpl; repeat split; intros; try discriminate; auto;
                 now contradict H].
  pose proof (getTouchEvent_pressed (mkTouchPoint px py now p a true) s1 e) as Hp.
  destruct (getTouchEvent_reports (mkTouchPoint px py now p a true) s1 e)
    as (HS & HE & _).
  destruct (getTouchEvent (mkTouchPoint px py now p a true) s1 e) as [ev e1].
  simpl in Hp, HS, HE. simpl.
  repeat split; auto.
  - intros cx cy. destruct ev; repeat case_match; try discriminate.
    destruct (proj1 HE eq_refl) as [Hv _]. discriminate.
  - intros cx cy. destruct ev; repeat case_match; try discriminate.
    destruct (proj1 HS eq_refl) as [_ Hw]. congruence.
Qed.

(** X19.  The timer of the handler reports a release once: after an
    [update] that found the last touch older than 100 ms, the touch is
    marked invalid, and no later [update] makes a callback until
    [handleTouch] has accepted a new sample. *)
Theorem handlerUpdate_fires_once (now now' : Z) (h : HandlerState) (s : State) :
  valid (lastTouch h) = true ->
  100 < u32 (now - timestamp (lastTouch h)) ->
  let '(call, h1, s1) := handlerUpdate now h s in
  call = (if onTouchEnd h
          then Some (TOUCH_END, x (lastTouch h), y (lastTouch h)) else None)
  /\ valid (lastTouch h1) = false
  /\ lastEvent h1 = TOUCH_END
  /\ s1 = update now s
  /\ handlerUpdate now' h1 s1 = (None, h1, update now' s1).
Proof.
  intros Hv Hold. unfold handlerUpdate. rewrite Hv.
  apply Z.ltb_lt in Hold. rewrite Hold. simpl. repeat split.
Qed.

Lemma handlerUpdate_fires_once_witness :
  fst (fst (handlerUpdate 1200
              (mkHandlerState (mkTouchPoint 10 20 1000 0 0 true) TOUCH_START
                 true true true)
              capacitiveEngine))
  = Some (TOUCH_END, 10, 20).
Proof.
  pose proof (handlerUpdate_fires_once 1200 1300
                (mkHandlerState (mkTouchPoint 10 20 1000 0 0 true) TOUCH_START
                   true true true)
                capacitiveEngine eq_refl ltac:(vm_compute; reflexivity)) as H.
  destruct (handlerUpdate 1200 _ capacitiveEngine) as [[call h1] s1].
  exact (proj1 H).
Defined.
